(** * MicroHydra, Cardputer ADV keyboard input

    A shallow embedding of
      devices/CARDPUTER _ADV/lib/userinput/tca8418.py   (the TCA8418 driver)
      devices/CARDPUTER _ADV/lib/userinput/_keys.py     (the Keys class)
    and the properties of the key-state engine proved over it.

    Python integers are [Z]; the bitwise operators [&] are [Z.land].  A
    [dict] literal is a [gmap]; a Python [list] is a [list].  The
    [machine] module (I2C bus, GPIO pin) is an interface, [Board], over an
    abstract board state; every bus transaction, pin read and [print] is
    appended to a trace, so that what a method did on the bus can be
    stated.  Methods run in a small state-and-exception monad; the one
    [while] loop of the code takes fuel. *)

From Stdlib Require Import ZArith String HexString Lia.
From stdpp Require Import base option list gmap strings.

Open Scope string_scope.
Open Scope list_scope.
Open Scope Z_scope.

(** ** Python outcomes: a state and exception monad *)

Inductive exn : Type :=
  | OSError (msg : string)
  | KeyError (key : Z)
  | ValueError (msg : string)
  | AttributeError (msg : string).

(** What running a method from a state gives: a value, a raised
    exception, or no answer within the fuel given to its loop. *)
Inductive outcome (S A : Type) : Type :=
  | Ret (a : A) (s : S)
  | Raise (e : exn) (s : S)
  | OutOfFuel.
Arguments Ret {S A} a s.
Arguments Raise {S A} e s.
Arguments OutOfFuel {S A}.

Definition M (S A : Type) : Type := S → outcome S A.

Definition ret {S A} (a : A) : M S A := λ s, Ret a s.

Definition bind {S A B} (m : M S A) (k : A → M S B) : M S B :=
  λ s, match m s with
       | Ret a s' => k a s'
       | Raise e s' => Raise e s'
       | OutOfFuel => OutOfFuel
       end.

Definition raise {S A} (e : exn) : M S A := λ s, Raise e s.
Definition get {S} : M S S := λ s, Ret s s.
Definition modify {S} (f : S → S) : M S unit := λ s, Ret tt (f s).

(** [try: m except OSError as e: h e] *)
Definition try_except_OSError {S A} (m : M S A) (h : string → M S A) : M S A :=
  λ s, match m s with
       | Raise (OSError msg) s' => h msg s'
       | o => o
       end.

(** Run a computation on a component of a larger state. *)
Definition zoom {S T A} (proj : S → T) (inj : T → S → S) (m : M T A) : M S A :=
  λ s, match m (proj s) with
       | Ret a t => Ret a (inj t s)
       | Raise e t => Raise e (inj t s)
       | OutOfFuel => OutOfFuel
       end.

#[global] Instance M_ret {S} : MRet (M S) := λ A, ret.
#[global] Instance M_bind {S} : MBind (M S) := λ A B k m, bind m k.

Definition returned {S A} (o : outcome S A) : option A :=
  match o with Ret a _ => Some a | _ => None end.

Definition raised {S A} (o : outcome S A) : option exn :=
  match o with Raise e _ => Some e | _ => None end.

Definition final {S A} (o : outcome S A) : option S :=
  match o with Ret _ s | Raise _ s => Some s | OutOfFuel => None end.

Definition terminates {S A} (o : outcome S A) : Prop := o ≠ OutOfFuel.

(** ** The [machine] module: I2C bus and GPIO pin *)

(** One entry per interaction with the outside world. *)
Inductive io : Type :=
  | I2cScan (found : list Z)
  | I2cRead (addr reg val : Z)
  | I2cWrite (addr reg val : Z)
  | PinValue (pin val : Z)
  | Print (line : string).

(** The board behind [machine.I2C] and [machine.Pin].  [D] is the state
    of the hardware; a read may change it (reading the key-status register
    of the chip pops its FIFO). *)
Class Board (D : Type) : Type := {
  i2c_scan : D → list Z * D;
  i2c_readfrom_mem : Z → Z → D → Z * D;
  i2c_writeto_mem : Z → Z → Z → D → D;
  pin_value : Z → D → Z * D;
}.

Record world (D : Type) : Type := World {
  board : D;
  trace : list io;
}.
Arguments World {D} board trace.
Arguments board {D} w.
Arguments trace {D} w.

(** ** tca8418.py *)

Module tca8418.

Definition REG_CFG : Z := 0x01.
Definition REG_INT_STAT : Z := 0x02.
Definition REG_KEY_STAT : Z := 0x04.
Definition REG_KEY_LCK_EC : Z := 0x03.
Definition REG_KP_ML_SM : Z := 0x0E.
Definition REG_KP_SL_CFG : Z := 0x0F.
Definition REG_KP_GPIO1 : Z := 0x1D.
Definition REG_KP_GPIO2 : Z := 0x1E.
Definition REG_KP_GPIO3 : Z := 0x1F.

Definition TCA8418_ADDR : Z := 0x34.

(** The driver object.  [self.i2c] is the one bus of the board. *)
Record TCA8418 : Type := { address : Z }.

Section driver.
Context {D : Type} `{Board D}.

(** [self.i2c.scan()] *)
Definition scan_bus : M (world D) (list Z) :=
  λ w, let '(found, d) := i2c_scan (board w) in
       Ret found (World d (trace w ++ [I2cScan found])).

(** [self.i2c.writeto_mem(self.address, register, bytes([value]))] *)
Definition _write_register (self : TCA8418) (register value : Z) : M (world D) unit :=
  λ w, let d := i2c_writeto_mem (address self) register value (board w) in
       Ret tt (World d (trace w ++ [I2cWrite (address self) register value])).

(** [data = self.i2c.readfrom_mem(self.address, register, 1); return data[0]] *)
Definition _read_register (self : TCA8418) (register : Z) : M (world D) Z :=
  λ w, let '(v, d) := i2c_readfrom_mem (address self) register (board w) in
       Ret v (World d (trace w ++ [I2cRead (address self) register v])).

Definition init_device (self : TCA8418) : M (world D) unit :=
  _write_register self REG_INT_STAT 0xFF ;;
  _write_register self REG_CFG 0x11 ;;
  _write_register self REG_KP_GPIO1 0xFF ;;
  _write_register self REG_KP_GPIO2 0xFF ;;
  _write_register self REG_KP_GPIO3 0x0F ;;
  _write_register self REG_KP_ML_SM 0x01.

(** [TCA8418(i2c, address)] *)
Definition __init__ (address : Z) : M (world D) TCA8418 :=
  let self := {| address := address |} in
  found ← scan_bus;
  if bool_decide (address ∉ found)
  then raise (OSError (String.append "TCA8418 not found at address " (HexString.of_Z address)))
  else init_device self ;; ret self.

Definition read_event_count (self : TCA8418) : M (world D) Z :=
  r ← _read_register self REG_KEY_LCK_EC;
  let event_count := Z.land r 0x0F in
  ret event_count.

Definition clear_interrupt (self : TCA8418) : M (world D) unit :=
  _write_register self REG_INT_STAT 0xFF.

(** The pair returned is [(key_code, is_press)].  The two [return 0, 0]
    give the integer 0 for [is_press]; its only use is as a condition,
    where 0 is [False]. *)
Definition read_key_event (self : TCA8418) : M (world D) (Z * bool) :=
  interrupt ← _read_register self REG_INT_STAT;
  if negb (Z.land interrupt 0x00 =? 0) then ret (0, false)
  else if negb (Z.land interrupt 0x01 =? 0) then
    r ← _read_register self REG_KEY_LCK_EC;
    let event_count := Z.land r 0x0F in
    if 0 <? event_count then
      key_event ← _read_register self REG_KEY_STAT;
      let is_press := negb (Z.land key_event 0x80 =? 0) in
      let key_code := Z.land key_event 0x7F in
      (if event_count =? 1 then clear_interrupt self else ret tt) ;;
      ret (key_code, is_press)
    else ret (0, false)
  else ret (0, false).

(** [read_key_event] without its first [if]. *)
Definition read_key_event_without_first_branch (self : TCA8418) : M (world D) (Z * bool) :=
  interrupt ← _read_register self REG_INT_STAT;
  if negb (Z.land interrupt 0x01 =? 0) then
    r ← _read_register self REG_KEY_LCK_EC;
    let event_count := Z.land r 0x0F in
    if 0 <? event_count then
      key_event ← _read_register self REG_KEY_STAT;
      let is_press := negb (Z.land key_event 0x80 =? 0) in
      let key_code := Z.land key_event 0x7F in
      (if event_count =? 1 then clear_interrupt self else ret tt) ;;
      ret (key_code, is_press)
    else ret (0, false)
  else ret (0, false).

End driver.

End tca8418.

(** ** _keys.py *)

Module keys.
Import tca8418.

Definition KC_SHIFT : Z := 7.
Definition KC_FN : Z := 3.

(** The one-character strings that a Rocq string literal cannot hold
    as they are. *)
Definition DQUOTE : string := String (Ascii.ascii_of_nat 34) EmptyString.

Definition KEYMAP : gmap Z string := list_to_map [
  (1,"`"); (5,"1"); (11,"2"); (15,"3"); (21,"4"); (25,"5"); (31,"6"); (35,"7");
  (41,"8"); (45,"9"); (51,"0"); (55,"-"); (61,"="); (65,"BSPC");

  (2,"TAB"); (6,"q"); (12,"w"); (16,"e"); (22,"r"); (26,"t"); (32,"y"); (36,"u");
  (42,"i"); (46,"o"); (52,"p"); (56,"["); (62,"]"); (66,"\");

  (3,"FN"); (7,"SHIFT"); (13,"a"); (17,"s"); (23,"d"); (27,"f"); (33,"g"); (37,"h");
  (43,"j"); (47,"k"); (53,"l"); (57,";"); (63,"'"); (67,"ENT");

  (4,"CTL"); (8,"OPT"); (14,"ALT"); (18,"z"); (24,"x"); (28,"c"); (34,"v"); (38,"b");
  (44,"n"); (48,"m"); (54,","); (58,"."); (64,"/"); (68,"SPC") ].

Definition KEYMAP_SHIFT : gmap Z string := list_to_map [
  (1,"~"); (5,"!"); (11,"@"); (15,"#"); (21,"$"); (25,"%"); (31,"^"); (35,"&");
  (41,"*"); (45,"("); (51,")"); (55,"_"); (61,"+"); (65,"BSPC");

  (2,"TAB"); (6,"Q"); (12,"W"); (16,"E"); (22,"R"); (26,"T"); (32,"Y"); (36,"U");
  (42,"I"); (46,"O"); (52,"P"); (56,"{"); (62,"}"); (66,"|");

  (3,"FN"); (7,"SHIFT"); (13,"A"); (17,"S"); (23,"D"); (27,"F"); (33,"G"); (37,"H");
  (43,"J"); (47,"K"); (53,"L"); (57,":"); (63,DQUOTE); (67,"ENT");

  (4,"CTL"); (8,"OPT"); (14,"ALT"); (18,"Z"); (24,"X"); (28,"C"); (34,"V"); (38,"B");
  (44,"N"); (48,"M"); (54,"<"); (58,">"); (64,"?"); (68,"SPC") ].

Definition KEYMAP_FN : gmap Z string := list_to_map [
  (1,"ESC"); (5,"F1"); (11,"F2"); (15,"F3"); (21,"F4"); (25,"F5"); (31,"F6"); (35,"F7");
  (41,"F8"); (45,"F9"); (51,"F10"); (55,"_"); (61,"="); (65,"DEL");

  (2,"TAB"); (6,"q"); (12,"w"); (16,"e"); (22,"r"); (26,"t"); (32,"y"); (36,"u");
  (42,"i"); (46,"o"); (52,"p"); (56,"["); (62,"]"); (66,"\");

  (3,"FN"); (7,"SHIFT"); (13,"a"); (17,"s"); (23,"d"); (27,"f"); (33,"g"); (37,"h");
  (43,"j"); (47,"k"); (53,"l"); (57,"UP"); (63,"'"); (67,"ENT");

  (4,"CTL"); (8,"OPT"); (14,"ALT"); (18,"z"); (24,"x"); (28,"c"); (34,"v"); (38,"b");
  (44,"n"); (48,"m"); (54,"LEFT"); (58,"DOWN"); (64,"RIGHT"); (68,"SPC") ].

Definition MOD_KEYS : list string := ["ALT"; "CTL"; "FN"; "SHIFT"; "OPT"].
Definition ALWAYS_NEW_KEYS : list string := [].

(** The class attribute [Keys.ext_dir_dict]. *)
Definition ext_dir_dict : gmap string string := list_to_map [
  (";","UP"); (",","LEFT"); (".","DOWN"); ("/","RIGHT"); ("`","ESC") ].

(** The loop of [ext_dir_keys],
    [for idx, key in enumerate(keylist): if key in Keys.ext_dir_dict:
     keylist[idx] = Keys.ext_dir_dict[key]],
    from index [idx] on; [todo] bounds the items still to come.  The list
    is read at [idx] at each turn, as the iterator of a Python list does,
    and written in place; the loop ends when [idx] is past the end. *)
Fixpoint ext_dir_loop (todo idx : nat) (keylist : list string) : list string :=
  match todo with
  | O => keylist
  | S todo =>
      match keylist !! idx with
      | None => keylist
      | Some key =>
          ext_dir_loop todo (S idx)
            (match ext_dir_dict !! key with
             | Some dir => <[idx:=dir]> keylist
             | None => keylist
             end)
      end
  end.

(** The static method [Keys.ext_dir_keys]: the items of [keylist] once it
    has run; the list it returns is [keylist] itself, updated. *)
Definition ext_dir_keys (keylist : list string) : list string :=
  ext_dir_loop (length keylist) 0 keylist.

(** The attributes of a [Keys] object.  [G0] is the number of its pin;
    [keypad] is unset when [__init__] caught the driver's error. *)
Record Keys : Type := {
  _key_list_buffer : list Z;
  G0 : Z;
  keypad : option TCA8418;
  key_state : list string;
}.

(** [list.remove(x)]: drops the first item equal to [x]; [None] stands
    for its [ValueError]. *)
Fixpoint list_remove (x : Z) (l : list Z) : option (list Z) :=
  match l with
  | [] => None
  | y :: l' => if bool_decide (y = x) then Some l'
               else match list_remove x l' with
                    | Some r => Some (y :: r)
                    | None => None
                    end
  end.

Section resolver.
Context {D : Type} `{Board D}.

(** A [Keys] object and the machine it runs on. *)
Record state : Type := State {
  self : Keys;
  hw : world D;
}.

Definition machine {A} (m : M (world D) A) : M state A :=
  zoom hw (λ w s, State (self s) w) m.

Definition set_key_list_buffer (l : list Z) : M state unit :=
  modify (λ s, State {| _key_list_buffer := l; G0 := G0 (self s);
                        keypad := keypad (self s); key_state := key_state (self s) |} (hw s)).

Definition set_key_state (l : list string) : M state unit :=
  modify (λ s, State {| _key_list_buffer := _key_list_buffer (self s); G0 := G0 (self s);
                        keypad := keypad (self s); key_state := l |} (hw s)).

(** [self.keypad] *)
Definition self_keypad : M state TCA8418 :=
  s ← get;
  match keypad (self s) with
  | Some kp => ret kp
  | None => raise (AttributeError "'Keys' object has no attribute 'keypad'")
  end.

(** [self._key_list_buffer.append(key_code)] *)
Definition buffer_append (key_code : Z) : M state unit :=
  s ← get; set_key_list_buffer (_key_list_buffer (self s) ++ [key_code]).

(** [self._key_list_buffer.remove(key_code)] *)
Definition buffer_remove (key_code : Z) : M state unit :=
  s ← get;
  match list_remove key_code (_key_list_buffer (self s)) with
  | Some l => set_key_list_buffer l
  | None => raise (ValueError "list.remove(x): x not in list")
  end.

(** [self.key_state.append(sym)] *)
Definition key_state_append (sym : string) : M state unit :=
  s ← get; set_key_state (key_state (self s) ++ [sym]).

(** [self.G0.value()] *)
Definition G0_value : M state Z :=
  s ← get;
  machine (λ w, let '(v, d) := pin_value (G0 (self s)) (board w) in
                Ret v (World d (trace w ++ [PinValue (G0 (self s)) v]))).

Definition print (line : string) : M (world D) unit :=
  λ w, Ret tt (World (board w) (trace w ++ [Print line])).

(** The constructor [Keys.__init__]; its keyword arguments are unused. *)
Definition __init__ : M (world D) Keys :=
  let _key_list_buffer := [] in
  let G0 := 0 in
  keypad ← try_except_OSError
              (kp ← tca8418.__init__ TCA8418_ADDR; ret (Some kp))
              (λ e, print (String.append "I2C communication error: " e) ;; ret None);
  ret {| _key_list_buffer := _key_list_buffer; G0 := G0;
         keypad := keypad; key_state := [] |}.

(** [scan] is compiled by the viper emitter; its objects are handled as
    in plain Python. *)
Definition scan : M state (list Z) :=
  kp ← self_keypad;
  '(key_code, is_press) ← machine (read_key_event kp);
  (if is_press then
     s ← get;
     if bool_decide (key_code ∉ _key_list_buffer (self s))
     then buffer_append key_code else ret tt
   else ret tt) ;;
  (if negb is_press then
     s ← get;
     if bool_decide (key_code ∈ _key_list_buffer (self s))
     then buffer_remove key_code else ret tt
   else ret tt) ;;
  s ← get; ret (_key_list_buffer (self s)).

(** [while event_count: self.scan(); event_count = self.keypad.read_event_count()],
    one unit of fuel for each turn of the loop. *)
Fixpoint drain_loop (fuel : nat) (event_count : Z) : M state unit :=
  if event_count =? 0 then ret tt
  else match fuel with
       | O => λ _, OutOfFuel
       | S fuel =>
           scan ;;
           kp ← self_keypad;
           event_count ← machine (read_event_count kp);
           drain_loop fuel event_count
       end.

(** [for keycode in codes: self.key_state.append(table[keycode])] *)
Fixpoint append_symbols (table : gmap Z string) (codes : list Z) : M state unit :=
  match codes with
  | [] => ret tt
  | keycode :: codes =>
      match table !! keycode with
      | Some sym => key_state_append sym ;; append_symbols table codes
      | None => raise (KeyError keycode)
      end
  end.

(** The first statements of [get_pressed_keys], up to the end of its
    [while] loop. *)
Definition drain (fuel : nat) : M state unit :=
  kp ← self_keypad;
  event_count ← machine (read_event_count kp);
  drain_loop fuel event_count.

(** The rest of [get_pressed_keys], from [self.key_state = []] on. *)
Definition resolve (force_fn force_shift : bool) : M state (list string) :=
  set_key_state [] ;;
  v ← G0_value;
  (if v =? 0 then key_state_append "G0" else ret tt) ;;
  s ← get;
  if bool_decide (_key_list_buffer (self s) = []) && bool_decide (key_state (self s) = [])
  then ret (key_state (self s))
  else
    (if bool_decide (KC_FN ∈ _key_list_buffer (self s)) || force_fn
     then append_symbols KEYMAP_FN (_key_list_buffer (self s))
     else if bool_decide (KC_SHIFT ∈ _key_list_buffer (self s)) || force_shift
     then append_symbols KEYMAP_SHIFT (_key_list_buffer (self s))
     else append_symbols KEYMAP (_key_list_buffer (self s))) ;;
    s ← get; ret (key_state (self s)).

Definition get_pressed_keys (fuel : nat) (force_fn force_shift : bool) : M state (list string) :=
  drain fuel ;; resolve force_fn force_shift.

End resolver.
Arguments state D : clear implicits.
Arguments State {D} self hw.

End keys.

(** ** Vocabulary of the properties *)

Module spec.
Import tca8418 keys.

(** A KeyEvent: a code and whether it was pressed. *)
Definition KeyEvent : Type := (Z * bool)%type.

(** Whether the last event of [code] in [evs] was a press or a release;
    [None] when [evs] has no event of it. *)
Fixpoint last_event (code : Z) (evs : list KeyEvent) : option bool :=
  match evs with
  | [] => None
  | (c, pressed) :: evs =>
      match last_event code evs with
      | Some p => Some p
      | None => if bool_decide (c = code) then Some pressed else None
      end
  end.

Inductive ModifierLayer : Type := Plain | Shift | Fn.

(** The layer as the specification words it: Fn if the Fn code is held or
    forced, else Shift if the Shift code is held or forced, else Plain. *)
Definition active_layer (held : list Z) (force_fn force_shift : bool) : ModifierLayer :=
  if decide (KC_FN ∈ held ∨ force_fn = true) then Fn
  else if decide (KC_SHIFT ∈ held ∨ force_shift = true) then Shift
  else Plain.

Definition LayerTable (layer : ModifierLayer) : gmap Z string :=
  match layer with
  | Plain => KEYMAP
  | Shift => KEYMAP_SHIFT
  | Fn => KEYMAP_FN
  end.

(** The symbol of the auxiliary button, for a value read from its pin
    (the pin is active low). *)
Definition aux_symbols (v : Z) : list string :=
  if decide (v = 0) then ["G0"] else [].

(** The first of the codes that a table has no entry for. *)
Definition first_unmapped (table : gmap Z string) (held : list Z) : option Z :=
  List.find (λ code, bool_decide (table !! code = None)) held.

(** The symbols of the codes that come before the first one without an
    entry in the table: one symbol for each, in their order. *)
Fixpoint resolved_prefix (table : gmap Z string) (held : list Z) : list string :=
  match held with
  | [] => []
  | code :: held =>
      match table !! code with
      | Some sym => sym :: resolved_prefix table held
      | None => []
      end
  end.

(** Resolving the held codes through a table, with [v] read from the pin
    of the auxiliary button: the auxiliary symbol first, then the symbols
    of the held codes in their order; a [KeyError] for the first code that
    the table has no entry for. *)
Definition resolved (table : gmap Z string) (held : list Z) (v : Z) : exn + list string :=
  match first_unmapped table held with
  | Some code => inl (KeyError code)
  | None => inr (aux_symbols v ++ resolved_prefix table held)
  end.

(** What a caller sees of an outcome: the value returned or the exception
    raised. *)
Definition result {S A} (o : outcome S A) : option (exn + A) :=
  match o with
  | Ret a _ => Some (inr a)
  | Raise e _ => Some (inl e)
  | OutOfFuel => None
  end.

(** The held-key buffer once [scan] has handled the event
    [(key_code, is_press)]. *)
Definition buffer_after (ev : KeyEvent) (buf : list Z) : list Z :=
  let '(key_code, is_press) := ev in
  if is_press
  then (if bool_decide (key_code ∈ buf) then buf else buf ++ [key_code])
  else default buf (list_remove key_code buf).

(** The HeldKeySet of the specification, in its words: a press appends
    the code if it is absent, a release removes it if it is present. *)
Definition HeldKeySet_apply (held : list Z) (ev : KeyEvent) : list Z :=
  let '(code, pressed) := ev in
  if pressed
  then (if decide (code ∈ held) then held else held ++ [code])
  else filter (λ c, c ≠ code) held.

(** What [ext_dir_keys] makes of one symbol. *)
Definition ext_dir (key : string) : string :=
  default key (ext_dir_dict !! key).

(** The configuration that [init_device] writes: registers and values,
    in the order of the writes. *)
Definition init_writes : list (Z * Z) :=
  [(REG_INT_STAT, 0xFF); (REG_CFG, 0x11); (REG_KP_GPIO1, 0xFF);
   (REG_KP_GPIO2, 0xFF); (REG_KP_GPIO3, 0x0F); (REG_KP_ML_SM, 0x01)].

Definition with_buffer (k : Keys) (buf : list Z) : Keys :=
  {| _key_list_buffer := buf; G0 := G0 k; keypad := keypad k;
     key_state := key_state k |}.

Definition with_key_state (k : Keys) (syms : list string) : Keys :=
  {| _key_list_buffer := _key_list_buffer k; G0 := G0 k; keypad := keypad k;
     key_state := syms |}.

Section runs.
Context {D : Type} `{Board D}.

(** [scan_run s evs s']: from [s], calls of [scan] in which
    [read_key_event] delivered the events [evs], in this order, lead to
    [s']; between two calls anything may happen that leaves the held-key
    buffer alone (the hardware moves on, a poll rewrites [key_state]). *)
Inductive scan_run : state D → list KeyEvent → state D → Prop :=
  | scan_run_done s :
      scan_run s [] s
  | scan_run_scan s kp ev w buf s1 evs s2 :
      keypad (self s) = Some kp →
      read_key_event kp (hw s) = Ret ev w →
      scan s = Ret buf s1 →
      scan_run s1 evs s2 →
      scan_run s (ev :: evs) s2
  | scan_run_other s s1 evs s2 :
      _key_list_buffer (self s1) = _key_list_buffer (self s) →
      scan_run s1 evs s2 →
      scan_run s evs s2.

(** One turn of the drain loop, from the event count in hand and the
    state to the next ones: the count is not zero, [scan] runs and the
    count is read again. *)
Definition turn : relation (Z * state D) :=
  λ '(event_count, s) '(event_count', s'),
    event_count ≠ 0 ∧
    (scan ;; kp ← self_keypad; machine (read_event_count kp)) s = Ret event_count' s'.

End runs.

End spec.

(** ** A simulated chip

    A board to run the code on: a TCA8418 whose registers behave as the
    driver's comments describe them, and the G0 button.  The interrupt
    flag and the FIFO are independent fields, so that a chip whose flag is
    clear while events are buffered can be written down; [glitches] is the
    number of coming reads of the interrupt-status register that the bus
    answers with 0. *)

Module sim.
Import tca8418 keys.

Record chip : Type := Chip {
  acks : bool;
  int_stat : Z;
  fifo : list Z;
  glitches : nat;
  g0 : Z;
}.

Definition read (reg : Z) (c : chip) : Z * chip :=
  if reg =? REG_INT_STAT then
    match glitches c with
    | O => (int_stat c, c)
    | S n => (0, Chip (acks c) (int_stat c) (fifo c) n (g0 c))
    end
  else if reg =? REG_KEY_LCK_EC then (Z.of_nat (length (fifo c)), c)
  else if reg =? REG_KEY_STAT then
    match fifo c with
    | [] => (0, c)
    | e :: q => (e, Chip (acks c) (int_stat c) q (glitches c) (g0 c))
    end
  else (0, c).

Definition write (reg val : Z) (c : chip) : chip :=
  if reg =? REG_INT_STAT
  then Chip (acks c) (Z.land (int_stat c) (Z.lxor 0xFF (Z.land val 0xFF)))
            (fifo c) (glitches c) (g0 c)
  else c.

#[global] Instance chip_board : Board chip := {
  i2c_scan c := (if acks c then [TCA8418_ADDR] else [], c);
  i2c_readfrom_mem _ reg c := read reg c;
  i2c_writeto_mem _ reg val c := write reg val c;
  pin_value _ c := (g0 c, c);
}.

(** The matrix queues events: they join the FIFO and the flag is set. *)
Definition key_events (evs : list Z) (c : chip) : chip :=
  Chip (acks c) (Z.lor (int_stat c) 1) (fifo c ++ evs) (glitches c) (g0 c).

Definition press (code : Z) : Z := Z.lor 0x80 code.
Definition release (code : Z) : Z := code.

(** A chip at rest, G0 not pushed (the pin is pulled up). *)
Definition idle : chip := Chip true 0 [] 0 1.

(** The object a successful [Keys()] gives. *)
Definition fresh : Keys :=
  {| _key_list_buffer := []; G0 := 0;
     keypad := Some {| address := TCA8418_ADDR |}; key_state := [] |}.

(** The state an outcome ends in, with the hardware put in [c]. *)
Definition next_poll {A} (o : outcome (state chip) A) (f : chip → chip) : state chip :=
  match final o with
  | Some s => State (self s) (World (f (board (hw s))) (trace (hw s)))
  | None => State fresh (World idle [])
  end.

End sim.

Import tca8418 keys spec sim.

(** ** Concrete inputs *)

(** The chip does not answer at its address. *)
Definition absent_world : world chip := World (Chip false 0 [] 0 1) [].

(** One press of [a] is buffered and flagged. *)
Definition one_press_world : world chip := World (key_events [press 13] idle) [].

(** Two events are buffered while the interrupt flag is clear. *)
Definition stuck_state : state chip :=
  State fresh (World (Chip true 0 [press 13; press 17] 0 1) []).

(** Two events are buffered; the first read of the flag gives 0. *)
Definition glitch_state : state chip :=
  State fresh (World (Chip true 1 [press 13; press 17] 1 1) []).

(** The keys [a], code 9 and [s] go down; no table has an entry for 9. *)
Definition unmapped_state : state chip :=
  State fresh (World (key_events [press 13; press 9; press 17] idle) []).

(** Fn, Shift and the key of [1] go down. *)
Definition fn_shift_state : state chip :=
  State fresh (World (key_events [press 3; press 7; press 5] idle) []).

(** [a] goes down, then [s], then [a] goes up. *)
Definition three_events_state : state chip :=
  State fresh (World (key_events [press 13; press 17; release 13] idle) []).

(** Nothing is held or buffered, and G0 is pushed. *)
Definition g0_pushed_state : state chip :=
  State fresh (World (Chip true 0 [] 0 0) []).

(** [a] is held and nothing is buffered. *)
Definition holding_a_state : state chip :=
  State {| _key_list_buffer := [13]; G0 := 0;
           keypad := Some {| address := TCA8418_ADDR |}; key_state := ["a"] |}
        (World idle []).

(** ** Tactics *)

Ltac unfold_monad :=
  unfold mbind, M_bind, mret, M_ret, bind, ret, raise, get, modify, zoom,
    try_except_OSError in *.

(** One call of [scan] of a run on the simulated chip, by evaluation. *)
Ltac scan_run_step :=
  lazymatch goal with
  | |- scan_run ?s (_ :: _) _ =>
      let kp := constr:({| address := TCA8418_ADDR |}) in
      let e := eval vm_compute in (read_key_event kp (hw s)) in
      let o := eval vm_compute in (scan s) in
      lazymatch e with
      | Ret ?ev ?w =>
          lazymatch o with
          | Ret ?buf ?s1 =>
              apply (scan_run_scan s kp ev w buf s1);
              [reflexivity | vm_compute; reflexivity | vm_compute; reflexivity |]
          end
      end
  end.

(** One turn of the drain loop on the simulated chip, by evaluation. *)
Ltac turn_step :=
  lazymatch goal with
  | |- nsteps turn (S _) (?c, ?s) _ =>
      let o := eval vm_compute in
        ((scan ;; kp ← self_keypad; machine (read_event_count kp)) s) in
      lazymatch o with
      | Ret ?c' ?s' =>
          apply (nsteps_l turn _ (c, s) (c', s'));
          [split; [discriminate | vm_compute; reflexivity] |]
      end
  end.

(** ** Arithmetic of the masks *)

Lemma land_bit_eqb (x n : Z) :
  0 ≤ n → (Z.land x (2 ^ n) =? 0) = negb (Z.testbit x n).
Proof.
  intros Hn. destruct (Z.testbit x n) eqn:Hb; simpl.
  - apply Z.eqb_neq. intros H0.
    assert (Ht : Z.testbit (Z.land x (2 ^ n)) n = true).
    { rewrite Z.land_spec, Hb, Z.pow2_bits_true; [done | lia]. }
    rewrite H0, Z.bits_0 in Ht. discriminate.
  - apply Z.eqb_eq. apply Z.bits_inj'. intros i Hi.
    rewrite Z.land_spec, Z.bits_0, Z.pow2_bits_eqb by lia.
    destruct (Z.eqb_spec n i) as [->|]; [by rewrite Hb | by rewrite andb_false_r].
Qed.

Lemma land_0x01_eqb (x : Z) : (Z.land x 0x01 =? 0) = negb (Z.testbit x 0).
Proof. apply (land_bit_eqb x 0). lia. Qed.

Lemma land_0x80_eqb (x : Z) : (Z.land x 0x80 =? 0) = negb (Z.testbit x 7).
Proof. apply (land_bit_eqb x 7). lia. Qed.

Lemma land_0x7F_mod (x : Z) : Z.land x 0x7F = x `mod` 2 ^ 7.
Proof. apply (Z.land_ones x 7). lia. Qed.

Lemma land_0x0F_range (x : Z) : 0 ≤ Z.land x 0x0F < 16.
Proof.
  change 0x0F with (Z.ones 4). rewrite Z.land_ones by lia.
  apply Z.mod_pos_bound. lia.
Qed.

(** ** The driver *)

Section driver_facts.
Context {D : Type} `{Board D}.

Lemma read_register_eq (self : TCA8418) (reg : Z) (w : world D) v d :
  i2c_readfrom_mem (address self) reg (board w) = (v, d) →
  _read_register self reg w =
    Ret v (World d (trace w ++ [I2cRead (address self) reg v])).
Proof. intros E. unfold _read_register. by rewrite E. Qed.

Lemma read_register_returns (self : TCA8418) (reg : Z) (w : world D) :
  ∃ v d, i2c_readfrom_mem (address self) reg (board w) = (v, d) ∧
         _read_register self reg w =
           Ret v (World d (trace w ++ [I2cRead (address self) reg v])).
Proof.
  destruct (i2c_readfrom_mem (address self) reg (board w)) as [v d] eqn:E.
  exists v, d. split; [done | by apply read_register_eq].
Qed.

(** C9: the condition of the first [if] of [read_key_event],
    [(interrupt & 0x00) != 0], is false for every value of the register, and
    the method equals the one without that branch on every world. *)
Theorem read_key_event_first_branch_dead (self : TCA8418) :
  (∀ interrupt : Z, negb (Z.land interrupt 0x00 =? 0) = false) ∧
  (∀ w : world D, read_key_event self w = read_key_event_without_first_branch self w).
Proof.
  split.
  - intros interrupt. by rewrite Z.land_0_r.
  - intros w. unfold read_key_event, read_key_event_without_first_branch.
    unfold_monad.
    destruct (_read_register self REG_INT_STAT w) as [interrupt w'| |]; [|done..].
    by rewrite Z.land_0_r.
Qed.

End driver_facts.

Section next_event.
Context {D : Type} `{Board D}.

(** What [read_key_event] does when an event is there to deliver. *)
Lemma read_key_event_event
    (self : TCA8418) (w : world D) interrupt d1 r d2 key_event d3 :
  i2c_readfrom_mem (address self) REG_INT_STAT (board w) = (interrupt, d1) →
  i2c_readfrom_mem (address self) REG_KEY_LCK_EC d1 = (r, d2) →
  i2c_readfrom_mem (address self) REG_KEY_STAT d2 = (key_event, d3) →
  Z.testbit interrupt 0 = true →
  Z.land r 0x0F ≠ 0 →
  read_key_event self w =
    Ret (key_event `mod` 2 ^ 7, Z.testbit key_event 7)
        (World
           (if decide (Z.land r 0x0F = 1)
            then i2c_writeto_mem (address self) REG_INT_STAT 0xFF d3 else d3)
           (trace w ++
              [I2cRead (address self) REG_INT_STAT interrupt;
               I2cRead (address self) REG_KEY_LCK_EC r;
               I2cRead (address self) REG_KEY_STAT key_event] ++
              (if decide (Z.land r 0x0F = 1)
               then [I2cWrite (address self) REG_INT_STAT 0xFF] else []))).
Proof.
  intros E1 E2 E3 Hflag Hcount.
  unfold read_key_event. unfold_monad.
  rewrite (read_register_eq _ _ _ _ _ E1).
  rewrite Z.land_0_r, land_0x01_eqb, Hflag. simpl.
  rewrite (read_register_eq self REG_KEY_LCK_EC (World d1 _) r d2 E2).
  pose proof (land_0x0F_range r) as Hr.
  replace (0 <? Z.land r 15) with true by (symmetry; apply Z.ltb_lt; lia).
  rewrite (read_register_eq self REG_KEY_STAT (World d2 _) key_event d3 E3).
  rewrite land_0x80_eqb, negb_involutive, land_0x7F_mod.
  destruct (decide (Z.land r 15 = 1)) as [E|E].
  - rewrite E. simpl. unfold clear_interrupt, _write_register. simpl.
    by rewrite <- !app_assoc.
  - apply Z.eqb_neq in E. rewrite E. simpl. by rewrite <- !app_assoc.
Qed.

(** With the flag clear, or with the flag set and a count of zero,
    [read_key_event] returns [(0, 0)] and does not read the key-status
    register. *)
Lemma read_key_event_no_event (self : TCA8418) (w : world D) interrupt d1 r d2 :
  i2c_readfrom_mem (address self) REG_INT_STAT (board w) = (interrupt, d1) →
  i2c_readfrom_mem (address self) REG_KEY_LCK_EC d1 = (r, d2) →
  Z.testbit interrupt 0 = false ∨ Z.land r 0x0F = 0 →
  read_key_event self w =
    Ret (0, false)
        (if Z.testbit interrupt 0
         then World d2 (trace w ++ [I2cRead (address self) REG_INT_STAT interrupt;
                                    I2cRead (address self) REG_KEY_LCK_EC r])
         else World d1 (trace w ++ [I2cRead (address self) REG_INT_STAT interrupt])).
Proof.
  intros E1 E2 Hno.
  unfold read_key_event. unfold_monad.
  rewrite (read_register_eq _ _ _ _ _ E1).
  rewrite Z.land_0_r, land_0x01_eqb, negb_involutive.
  destruct (Z.testbit interrupt 0); cbn [negb Z.eqb]; [|done].
  destruct Hno as [?|Hz]; [done|].
  rewrite (read_register_eq self REG_KEY_LCK_EC (World d1 _) r d2 E2).
  change (Z.land r 15) with (Z.land r 0x0F). rewrite Hz. simpl.
  by rewrite <- !app_assoc.
Qed.

(** [read_key_event] always returns, and what it does to the world does
    not depend on the trace so far. *)
Lemma read_key_event_returns (self : TCA8418) (w : world D) :
  ∃ ev w', read_key_event self w = Ret ev w'.
Proof.
  destruct (i2c_readfrom_mem (address self) REG_INT_STAT (board w))
    as [interrupt d1] eqn:E1.
  destruct (i2c_readfrom_mem (address self) REG_KEY_LCK_EC d1) as [r d2] eqn:E2.
  destruct (i2c_readfrom_mem (address self) REG_KEY_STAT d2) as [k d3] eqn:E3.
  destruct (Z.testbit interrupt 0) eqn:Hb.
  - destruct (decide (Z.land r 0x0F = 0)) as [Hz|Hz].
    + eexists _, _. eapply read_key_event_no_event; eauto.
    + eexists _, _. eapply read_key_event_event; eauto.
  - eexists _, _. eapply read_key_event_no_event; eauto.
Qed.

Lemma read_event_count_returns (self : TCA8418) (w : world D) :
  ∃ c w', read_event_count self w = Ret c w'.
Proof.
  unfold read_event_count. unfold_monad.
  destruct (read_register_returns self REG_KEY_LCK_EC w) as (v & d & _ & ->).
  by eexists _, _.
Qed.

End next_event.

Section next_event_claims.
Context {D : Type} `{Board D}.

(** C5: when bit 0 of the interrupt-status register is set and the FIFO
    count (the low four bits of the event-count register) is not zero,
    [read_key_event] reads the key-status register exactly once, returns bits
    0 to 6 of the byte read as the code and bit 7 as the press flag, and
    writes 0xFF to the interrupt-status register exactly when the count it
    read before the pop was 1; nothing else goes over the bus. *)
Theorem read_key_event_pops_one_event
    (self : TCA8418) (w : world D) interrupt d1 r d2 key_event d3 :
  i2c_readfrom_mem (address self) REG_INT_STAT (board w) = (interrupt, d1) →
  i2c_readfrom_mem (address self) REG_KEY_LCK_EC d1 = (r, d2) →
  i2c_readfrom_mem (address self) REG_KEY_STAT d2 = (key_event, d3) →
  Z.testbit interrupt 0 = true →
  Z.land r 0x0F ≠ 0 →
  read_key_event self w =
    Ret (key_event `mod` 2 ^ 7, Z.testbit key_event 7)
        (World
           (if decide (Z.land r 0x0F = 1)
            then i2c_writeto_mem (address self) REG_INT_STAT 0xFF d3 else d3)
           (trace w ++
              [I2cRead (address self) REG_INT_STAT interrupt;
               I2cRead (address self) REG_KEY_LCK_EC r;
               I2cRead (address self) REG_KEY_STAT key_event] ++
              (if decide (Z.land r 0x0F = 1)
               then [I2cWrite (address self) REG_INT_STAT 0xFF] else []))).
Proof. apply read_key_event_event. Qed.

End next_event_claims.

Lemma read_key_event_pops_one_event_witness :
  read_key_event {| address := TCA8418_ADDR |} one_press_world =
    Ret (13, true)
        (World idle
           [I2cRead 0x34 REG_INT_STAT 1; I2cRead 0x34 REG_KEY_LCK_EC 1;
            I2cRead 0x34 REG_KEY_STAT 0x8D; I2cWrite 0x34 REG_INT_STAT 0xFF]).
Proof.
  exact (read_key_event_pops_one_event
           {| address := TCA8418_ADDR |} one_press_world
           1 (key_events [press 13] idle)
           1 (key_events [press 13] idle)
           0x8D (Chip true 1 [] 0 1)
           eq_refl eq_refl eq_refl eq_refl ltac:(vm_compute; discriminate)).
Defined.


(** ** The held-key buffer *)

Lemma list_remove_None (x : Z) (l : list Z) : list_remove x l = None ↔ x ∉ l.
Proof.
  induction l as [|y l IH]; simpl.
  - split; [intros _; apply not_elem_of_nil | done].
  - case_bool_decide as E.
    + split; [done | intros Hn; exfalso; apply Hn; subst; left].
    + destruct (list_remove x l) as [r|].
      * split; [done|]. intros Hn. exfalso.
        assert (x ∉ l) as Hl by (intros ?; apply Hn; by right).
        apply IH in Hl. done.
      * split; [|done]. intros _ Hin. apply elem_of_cons in Hin as [->|Hin]; [done|].
        by apply (proj1 IH).
Qed.

Lemma list_remove_Some (x : Z) (l r : list Z) :
  list_remove x l = Some r → l ≡ₚ x :: r.
Proof.
  revert r. induction l as [|y l IH]; simpl; intros r; [done|].
  case_bool_decide as E.
  - intros [= <-]. by subst.
  - destruct (list_remove x l) as [r'|]; [|done].
    intros [= <-]. rewrite (IH r' eq_refl). apply Permutation_swap.
Qed.


Lemma buffer_after_NoDup (ev : KeyEvent) (buf : list Z) :
  NoDup buf → NoDup (buffer_after ev buf).
Proof.
  destruct ev as [code [|]]; simpl; intros Hnd.
  - case_bool_decide as E; [done|].
    apply NoDup_app. split_and!; [done | | apply NoDup_singleton].
    intros y Hy Hy'. apply list_elem_of_singleton in Hy'. by subst.
  - destruct (list_remove code buf) as [r|] eqn:E; simpl; [|done].
    apply list_remove_Some in E. rewrite E in Hnd.
    by apply NoDup_cons in Hnd as [_ ?].
Qed.

Lemma buffer_after_elem_of (code : Z) (pressed : bool) (buf : list Z) (c : Z) :
  NoDup buf →
  c ∈ buffer_after (code, pressed) buf ↔
    if decide (c = code) then pressed = true else c ∈ buf.
Proof.
  intros Hnd. destruct pressed; simpl.
  - case_bool_decide as E.
    + case_decide; [by subst | done].
    + rewrite elem_of_app, list_elem_of_singleton. case_decide; [subst|]; tauto.
  - destruct (list_remove code buf) as [r|] eqn:E; simpl.
    + apply list_remove_Some in E.
      assert (c ∈ buf ↔ c = code ∨ c ∈ r) as Hc by (by rewrite E, elem_of_cons).
      rewrite E in Hnd. apply NoDup_cons in Hnd as [Hnin _].
      case_decide as Ec.
      * subst. split; [done | discriminate].
      * tauto.
    + apply list_remove_None in E. case_decide; [by subst | done].
Qed.

(** A release of a code that is not held changes nothing. *)
Lemma buffer_after_release_absent (code : Z) (buf : list Z) :
  code ∉ buf → buffer_after (code, false) buf = buf.
Proof. intros Hn. simpl. apply list_remove_None in Hn. by rewrite Hn. Qed.

(** A press of a held code changes nothing; a press of another code
    puts it last. *)
Lemma buffer_after_press (code : Z) (buf : list Z) :
  buffer_after (code, true) buf = if decide (code ∈ buf) then buf else buf ++ [code].
Proof. simpl. case_bool_decide; case_decide; done. Qed.


Lemma filter_absent (x : Z) (l : list Z) :
  x ∉ l → filter (λ c, c ≠ x) l = l.
Proof.
  induction l as [|y l IH]; [done|]. intros Hn.
  apply not_elem_of_cons in Hn as [Hxy Hl].
  rewrite filter_cons_True by done. by rewrite IH.
Qed.

(** On a buffer without duplicates, what [scan] does to the buffer is
    what the specification says of its HeldKeySet. *)
Lemma buffer_after_HeldKeySet (ev : KeyEvent) (buf : list Z) :
  NoDup buf → buffer_after ev buf = HeldKeySet_apply buf ev.
Proof.
  destruct ev as [code [|]]; simpl; intros Hnd.
  - case_bool_decide; case_decide; done.
  - induction Hnd as [|y l Hy Hnd IH]; simpl; [done|].
    case_bool_decide as E.
    + subst y. rewrite filter_cons_False by (intros Hn; by apply Hn).
      by rewrite filter_absent.
    + rewrite filter_cons_True by done.
      destruct (list_remove code l) as [r|] eqn:Er; simpl in *; by rewrite <- IH.
Qed.

(** The three tables have entries for the same codes. *)
Lemma tables_have_the_same_codes :
  dom KEYMAP_SHIFT = dom KEYMAP ∧ dom KEYMAP_FN = dom KEYMAP.
Proof. split; vm_compute; reflexivity. Qed.

Section scan_facts.
Context {D : Type} `{Board D}.

(** [scan] handles the event that [read_key_event] delivers: it returns
    the buffer, updated, and changes nothing else of the object. *)
Lemma scan_eq (s : state D) kp ev w :
  keypad (self s) = Some kp →
  read_key_event kp (hw s) = Ret ev w →
  scan s =
    Ret (buffer_after ev (_key_list_buffer (self s)))
        (State (with_buffer (self s) (buffer_after ev (_key_list_buffer (self s)))) w).
Proof.
  intros Hkp Hev. destruct s as [k w0]. destruct k as [buf g kpo ks].
  simpl in *. subst kpo.
  unfold scan, self_keypad, machine, buffer_append, buffer_remove,
    set_key_list_buffer, with_buffer.
  unfold_monad. simpl. rewrite Hev. destruct ev as [code [|]]; simpl.
  - case_bool_decide as E1; case_bool_decide as E2; try done.
  - case_bool_decide as E1; simpl.
    + destruct (list_remove code buf) as [r|] eqn:E; simpl; [done|].
      apply list_remove_None in E. done.
    + apply list_remove_None in E1. by rewrite E1.
Qed.


Lemma scan_run_held (s : state D) evs s' :
  scan_run s evs s' →
  NoDup (_key_list_buffer (self s)) →
  NoDup (_key_list_buffer (self s')) ∧
  ∀ code, code ∈ _key_list_buffer (self s') ↔
    match last_event code evs with
    | Some pressed => pressed = true
    | None => code ∈ _key_list_buffer (self s)
    end.
Proof.
  induction 1 as [s | s kp ev w buf s1 evs s2 Hkp Hev Hscan Hrun IH
                 | s s1 evs s2 Hbuf Hrun IH]; intros Hnd.
  - done.
  - rewrite (scan_eq s kp ev w Hkp Hev) in Hscan.
    injection Hscan as _ <-. simpl in IH.
    destruct (IH (buffer_after_NoDup ev _ Hnd)) as [Hnd' Hin].
    split; [done|]. intros code. rewrite Hin.
    destruct ev as [c pressed]. simpl last_event.
    destruct (last_event code evs) as [p|]; [done|].
    rewrite (buffer_after_elem_of c pressed _ code Hnd).
    case_decide; case_bool_decide; try done; by subst.
  - rewrite Hbuf in IH. by apply IH.
Qed.

(** From a buffer without duplicates, a run of [scan] leaves the
    HeldKeySet of the specification after the same events. *)
Lemma scan_run_HeldKeySet (s : state D) evs s' :
  scan_run s evs s' →
  NoDup (_key_list_buffer (self s)) →
  _key_list_buffer (self s') = foldl HeldKeySet_apply (_key_list_buffer (self s)) evs.
Proof.
  induction 1 as [s | s kp ev w buf s1 evs s2 Hkp Hev Hscan Hrun IH
                 | s s1 evs s2 Hbuf Hrun IH]; intros Hnd.
  - done.
  - rewrite (scan_eq s kp ev w Hkp Hev) in Hscan.
    injection Hscan as _ <-. simpl in IH. simpl.
    rewrite <- (buffer_after_HeldKeySet ev _ Hnd).
    apply IH. by apply buffer_after_NoDup.
  - rewrite Hbuf in IH. by apply IH.
Qed.

End scan_facts.

Section held_claims.
Context {D : Type} `{Board D}.

(** C1: from an empty held-key buffer, after any sequence of calls of
    [scan] that handled the press and release events [evs], the buffer holds
    each code at most once, and holds exactly the codes whose last event in
    [evs] was a press; presses of held codes and releases of codes that are
    not held come under this as any other event. *)
Theorem held_keys_are_last_pressed (s : state D) (evs : list KeyEvent) (s' : state D) :
  _key_list_buffer (self s) = [] →
  scan_run s evs s' →
  NoDup (_key_list_buffer (self s')) ∧
  ∀ code, code ∈ _key_list_buffer (self s') ↔ last_event code evs = Some true.
Proof.
  intros Hempty Hrun.
  destruct (scan_run_held s evs s' Hrun) as [Hnd Hin].
  { rewrite Hempty. apply NoDup_nil_2. }
  split; [done|]. intros code. rewrite Hin, Hempty.
  destruct (last_event code evs) as [p|].
  - split; [by intros -> | by intros [= ->]].
  - split; [by intros ?%not_elem_of_nil | done].
Qed.

(** C10: when [read_key_event] has no event to deliver (flag bit clear, or
    a count of zero) it returns [(0, 0)]; [scan] handles that pair as a
    release of code 0: a buffer without code 0 is returned as it is and the
    object is unchanged, and from a buffer with code 0 that code is
    removed. *)
Theorem scan_without_event_keeps_buffer (s : state D) kp interrupt d1 r d2 :
  keypad (self s) = Some kp →
  i2c_readfrom_mem (address kp) REG_INT_STAT (board (hw s)) = (interrupt, d1) →
  i2c_readfrom_mem (address kp) REG_KEY_LCK_EC d1 = (r, d2) →
  Z.testbit interrupt 0 = false ∨ Z.land r 0x0F = 0 →
  returned (read_key_event kp (hw s)) = Some (0, false) ∧
  (0 ∉ _key_list_buffer (self s) →
     ∃ w, scan s = Ret (_key_list_buffer (self s)) (State (self s) w)) ∧
  (0 ∈ _key_list_buffer (self s) →
     ∃ buf s', scan s = Ret buf s' ∧
       list_remove 0 (_key_list_buffer (self s)) = Some buf).
Proof.
  intros Hkp E1 E2 Hno.
  pose proof (read_key_event_no_event kp (hw s) interrupt d1 r d2 E1 E2 Hno) as Hev.
  split; [by rewrite Hev|].
  pose proof (scan_eq s kp _ _ Hkp Hev) as Hscan.
  split.
  - intros Hn. rewrite (buffer_after_release_absent 0 _ Hn) in Hscan.
    eexists. rewrite Hscan. f_equal. f_equal. by destruct s as [[] ?].
  - intros Hin. simpl in Hscan.
    destruct (list_remove 0 (_key_list_buffer (self s))) as [b|] eqn:E.
    + by eexists _, _.
    + apply list_remove_None in E. done.
Qed.

End held_claims.

Lemma held_keys_are_last_pressed_witness :
  NoDup [17] ∧
  ∀ code, code ∈ [17] ↔
    last_event code [(13, true); (17, true); (13, false)] = Some true.
Proof.
  eapply (held_keys_are_last_pressed three_events_state
            [(13, true); (17, true); (13, false)]
            (State (with_buffer fresh [17]) _)); [reflexivity|].
  do 3 scan_run_step. apply scan_run_done.
Defined.

Lemma scan_without_event_keeps_buffer_witness :
  returned (read_key_event {| address := TCA8418_ADDR |} (hw stuck_state)) =
    Some (0, false) ∧
  (0 ∉ _key_list_buffer (self stuck_state) →
     ∃ w, scan stuck_state =
            Ret (_key_list_buffer (self stuck_state)) (State (self stuck_state) w)) ∧
  (0 ∈ _key_list_buffer (self stuck_state) →
     ∃ buf s', scan stuck_state = Ret buf s' ∧
       list_remove 0 (_key_list_buffer (self stuck_state)) = Some buf).
Proof.
  apply (scan_without_event_keeps_buffer stuck_state {| address := TCA8418_ADDR |}
           0 (board (hw stuck_state)) 2 (board (hw stuck_state)));
    [reflexivity | reflexivity | reflexivity | left; reflexivity].
Defined.

(** ** Resolving the held keys *)

#[local] Opaque KEYMAP KEYMAP_SHIFT KEYMAP_FN.

Lemma layer_table_eq (held : list Z) (force_fn force_shift : bool) :
  LayerTable (active_layer held force_fn force_shift) =
    if bool_decide (KC_FN ∈ held) || force_fn then KEYMAP_FN
    else if bool_decide (KC_SHIFT ∈ held) || force_shift then KEYMAP_SHIFT
    else KEYMAP.
Proof.
  unfold active_layer.
  destruct (decide (KC_FN ∈ held)), (decide (KC_SHIFT ∈ held)),
    force_fn, force_shift;
    rewrite ?bool_decide_eq_true_2, ?bool_decide_eq_false_2 by done; simpl;
    repeat case_decide; try done; exfalso; intuition congruence.
Qed.

(** Fn comes before Shift. *)
Lemma active_layer_fn (held : list Z) (force_fn force_shift : bool) :
  KC_FN ∈ held ∨ force_fn = true → active_layer held force_fn force_shift = Fn.
Proof. intros Hfn. unfold active_layer. by rewrite decide_True. Qed.

Lemma first_unmapped_None (table : gmap Z string) (held : list Z) :
  first_unmapped table held = None ↔ Forall (λ code, is_Some (table !! code)) held.
Proof.
  unfold first_unmapped. induction held as [|c held IH]; simpl.
  - split; [intros _; apply Forall_nil_2 | done].
  - rewrite Forall_cons. case_bool_decide as E.
    + split; [done|]. intros [[sym Hs] _]. congruence.
    + rewrite IH. split; [|tauto]. intros Hall. split; [|done].
      by destruct (table !! c); [eexists|].
Qed.

Lemma first_unmapped_Some (table : gmap Z string) (held : list Z) (code : Z) :
  first_unmapped table held = Some code →
  code ∈ held ∧ table !! code = None.
Proof.
  unfold first_unmapped. intros Hf. apply find_some in Hf as [Hin Hb].
  apply bool_decide_eq_true in Hb. by rewrite <- list_elem_of_In in Hin.
Qed.

(** When every held code has an entry, there is one symbol for each code,
    in the order of the codes. *)
Lemma resolved_prefix_all (table : gmap Z string) (held : list Z) :
  first_unmapped table held = None →
  Forall2 (λ code sym, table !! code = Some sym) held (resolved_prefix table held).
Proof.
  unfold first_unmapped. induction held as [|c held IH]; simpl; [constructor|].
  case_bool_decide as E; [done|]. intros Hf.
  destruct (table !! c) as [sym|] eqn:Ec; [|done].
  constructor; [done | by apply IH].
Qed.

Section resolve_facts.
Context {D : Type} `{Board D}.

Lemma append_symbols_eq (table : gmap Z string) (codes : list Z) (k : Keys) (w : world D) :
  append_symbols table codes (State k w) =
    let s' := State (with_key_state k (key_state k ++ resolved_prefix table codes)) w in
    match first_unmapped table codes with
    | None => Ret () s'
    | Some code => Raise (KeyError code) s'
    end.
Proof.
  unfold first_unmapped. revert k.
  induction codes as [|c codes IH]; intros k; simpl.
  - unfold with_key_state. rewrite app_nil_r. by destruct k.
  - case_bool_decide as E.
    + rewrite E. unfold with_key_state. rewrite app_nil_r. by destruct k.
    + destruct (table !! c) as [sym|] eqn:Ec; [|done].
      unfold key_state_append, set_key_state. unfold_monad. simpl.
      rewrite IH. unfold with_key_state. simpl. by rewrite <- app_assoc.
Qed.

Lemma resolve_eq (force_fn force_shift : bool) (k : Keys) (w : world D) v d :
  pin_value (G0 k) (board w) = (v, d) →
  resolve force_fn force_shift (State k w) =
    let held := _key_list_buffer k in
    let table := LayerTable (active_layer held force_fn force_shift) in
    let syms := aux_symbols v ++ resolved_prefix table held in
    let s' := State (with_key_state k syms) (World d (trace w ++ [PinValue (G0 k) v])) in
    match first_unmapped table held with
    | None => Ret syms s'
    | Some code => Raise (KeyError code) s'
    end.
Proof.
  intros Hpin. cbv zeta. rewrite layer_table_eq.
  unfold resolve, set_key_state, G0_value, machine, key_state_append, set_key_state.
  unfold_monad. simpl. rewrite Hpin. unfold aux_symbols.
  destruct (Z.eqb_spec v 0) as [Hv|Hv]; simpl.
  - rewrite (decide_True _ _ Hv), andb_false_r.
    destruct (bool_decide (KC_FN ∈ _key_list_buffer k) || force_fn);
      [|destruct (bool_decide (KC_SHIFT ∈ _key_list_buffer k) || force_shift)];
      rewrite append_symbols_eq; simpl;
      by destruct (first_unmapped _ _).
  - rewrite (decide_False _ _ Hv). case_bool_decide as Hb; simpl.
    + unfold first_unmapped, with_key_state. rewrite Hb. simpl. done.
    + destruct (bool_decide (KC_FN ∈ _key_list_buffer k) || force_fn);
        [|destruct (bool_decide (KC_SHIFT ∈ _key_list_buffer k) || force_shift)];
        rewrite append_symbols_eq; simpl;
        by destruct (first_unmapped _ _).
Qed.

(** A poll whose drain loop ends resolves the buffer it is left with. *)
Lemma get_pressed_keys_eq (fuel : nat) (force_fn force_shift : bool)
    (s s1 : state D) v d :
  drain fuel s = Ret () s1 →
  pin_value (G0 (self s1)) (board (hw s1)) = (v, d) →
  get_pressed_keys fuel force_fn force_shift s =
    let held := _key_list_buffer (self s1) in
    let table := LayerTable (active_layer held force_fn force_shift) in
    let syms := aux_symbols v ++ resolved_prefix table held in
    let s' := State (with_key_state (self s1) syms)
                    (World d (trace (hw s1) ++ [PinValue (G0 (self s1)) v])) in
    match first_unmapped table held with
    | None => Ret syms s'
    | Some code => Raise (KeyError code) s'
    end.
Proof.
  intros Hdrain Hpin. unfold get_pressed_keys. unfold_monad. rewrite Hdrain.
  destruct s1 as [k w]. by apply resolve_eq.
Qed.

Lemma get_pressed_keys_result (fuel : nat) (force_fn force_shift : bool)
    (s s1 : state D) v d :
  drain fuel s = Ret () s1 →
  pin_value (G0 (self s1)) (board (hw s1)) = (v, d) →
  result (get_pressed_keys fuel force_fn force_shift s) =
    Some (resolved (LayerTable (active_layer (_key_list_buffer (self s1))
                                  force_fn force_shift))
                   (_key_list_buffer (self s1)) v).
Proof.
  intros Hdrain Hpin.
  rewrite (get_pressed_keys_eq fuel force_fn force_shift s s1 v d Hdrain Hpin).
  cbv zeta. unfold resolved. by destruct (first_unmapped _ _).
Qed.

End resolve_facts.

(** ** The drain loop *)

Section drain_facts.
Context {D : Type} `{Board D}.

Lemma drain_loop_zero (fuel : nat) (s : state D) : drain_loop fuel 0 s = Ret () s.
Proof. by destruct fuel. Qed.

Lemma drain_loop_no_fuel (c : Z) (s : state D) : c ≠ 0 → drain_loop 0 c s = OutOfFuel.
Proof. intros Hc. simpl. apply Z.eqb_neq in Hc. by rewrite Hc. Qed.

Lemma drain_loop_turn (fuel : nat) (c : Z) (s : state D) :
  c ≠ 0 →
  drain_loop (S fuel) c s =
    match (scan ;; kp ← self_keypad; machine (read_event_count kp)) s with
    | Ret c' s' => drain_loop fuel c' s'
    | Raise e s' => Raise e s'
    | OutOfFuel => OutOfFuel
    end.
Proof.
  intros Hc. simpl. apply Z.eqb_neq in Hc. rewrite Hc. unfold_monad.
  destruct (scan s) as [buf s1| |]; [|done..].
  destruct (self_keypad s1) as [kp s2| |]; [|done..].
  by destruct (machine (read_event_count kp) s2).
Qed.

(** One turn of the loop: the event is handled and the count read. *)
Lemma turn_eq (s : state D) kp ev w c w' :
  keypad (self s) = Some kp →
  read_key_event kp (hw s) = Ret ev w →
  read_event_count kp w = Ret c w' →
  (scan ;; kp ← self_keypad; machine (read_event_count kp)) s =
    Ret c (State (with_buffer (self s) (buffer_after ev (_key_list_buffer (self s)))) w').
Proof.
  intros Hkp Hev Hc. unfold_monad. rewrite (scan_eq s kp ev w Hkp Hev).
  unfold self_keypad, machine. unfold_monad. simpl. rewrite Hkp. simpl.
  by rewrite Hc.
Qed.

Lemma turn_returns (s : state D) kp :
  keypad (self s) = Some kp →
  ∃ c s', (scan ;; kp ← self_keypad; machine (read_event_count kp)) s = Ret c s' ∧
          keypad (self s') = Some kp.
Proof.
  intros Hkp.
  destruct (read_key_event_returns kp (hw s)) as (ev & w & Hev).
  destruct (read_event_count_returns kp w) as (c & w' & Hc).
  eexists _, _. split; [by apply (turn_eq s kp ev w c w')|done].
Qed.

(** The loop ends in [s'] exactly when some number of turns within the
    fuel leads from the count in hand to a count of 0, in [s']. *)
Lemma drain_loop_Ret_iff (fuel : nat) (c : Z) (s s' : state D) :
  drain_loop fuel c s = Ret () s' ↔
  ∃ n, (n ≤ fuel)%nat ∧ nsteps turn n (c, s) (0, s').
Proof.
  split.
  - revert c s. induction fuel as [|fuel IH]; intros c s Hd.
    + destruct (decide (c = 0)) as [->|Hc].
      * rewrite drain_loop_zero in Hd. injection Hd as <-.
        exists 0%nat. split; [lia | constructor].
      * by rewrite drain_loop_no_fuel in Hd.
    + destruct (decide (c = 0)) as [->|Hc].
      * rewrite drain_loop_zero in Hd. injection Hd as <-.
        exists 0%nat. split; [lia | constructor].
      * rewrite drain_loop_turn in Hd by done.
        destruct ((scan ;; kp ← self_keypad; machine (read_event_count kp)) s)
          as [c1 s1| |] eqn:Hturn; [|done..].
        destruct (IH c1 s1 Hd) as (n & Hn & Hsteps).
        exists (S n). split; [lia|].
        by apply (nsteps_l turn n (c, s) (c1, s1)).
  - intros (n & Hn & Hsteps). revert fuel Hn.
    remember (c, s) as x eqn:Ex. remember (0, s') as y eqn:Ey.
    revert c s Ex. induction Hsteps as [x|n x [c1 s1] y Hturn Hsteps IH];
      intros c s -> fuel Hn.
    + injection Ey as -> ->. apply drain_loop_zero.
    + destruct Hturn as [Hc Hturn].
      destruct fuel as [|fuel]; [lia|].
      rewrite drain_loop_turn, Hturn by done.
      apply (IH Ey c1 s1 eq_refl). lia.
Qed.

(** With its keypad, the object never sees the loop raise, and the
    keypad stays. *)
Lemma drain_loop_outcome (fuel : nat) (c : Z) (s : state D) kp :
  keypad (self s) = Some kp →
  drain_loop fuel c s = OutOfFuel ∨
  ∃ s', drain_loop fuel c s = Ret () s' ∧ keypad (self s') = Some kp.
Proof.
  revert c s. induction fuel as [|fuel IH]; intros c s Hkp.
  - destruct (decide (c = 0)) as [->|Hc].
    + right. exists s. by rewrite drain_loop_zero.
    + left. by apply drain_loop_no_fuel.
  - destruct (decide (c = 0)) as [->|Hc].
    + right. exists s. by rewrite drain_loop_zero.
    + rewrite drain_loop_turn by done.
      destruct (turn_returns s kp Hkp) as (c1 & s1 & -> & Hkp1).
      by apply IH.
Qed.

Lemma drain_eq (fuel : nat) (s : state D) kp c w :
  keypad (self s) = Some kp →
  read_event_count kp (hw s) = Ret c w →
  drain fuel s = drain_loop fuel c (State (self s) w).
Proof.
  intros Hkp Hc. unfold drain, self_keypad, machine. unfold_monad.
  simpl. rewrite Hkp. simpl. by rewrite Hc.
Qed.

(** Resolving never runs out of fuel: it has no loop of its own that
    needs any. *)
Lemma resolve_terminates (force_fn force_shift : bool) (s : state D) :
  terminates (resolve force_fn force_shift s).
Proof.
  destruct s as [k w].
  destruct (pin_value (G0 k) (board w)) as [v d] eqn:Hpin.
  rewrite (resolve_eq force_fn force_shift k w v d Hpin). cbv zeta.
  by destruct (first_unmapped _ _).
Qed.

Lemma get_pressed_keys_terminates_iff (fuel : nat) (force_fn force_shift : bool)
    (s : state D) kp c w :
  keypad (self s) = Some kp →
  read_event_count kp (hw s) = Ret c w →
  terminates (get_pressed_keys fuel force_fn force_shift s) ↔
  ∃ n s', (n ≤ fuel)%nat ∧ nsteps turn n (c, State (self s) w) (0, s').
Proof.
  intros Hkp Hc. unfold get_pressed_keys. unfold_monad.
  rewrite (drain_eq fuel s kp c w Hkp Hc).
  destruct (drain_loop_outcome fuel c (State (self s) w) kp Hkp)
    as [Hout|(s' & Hret & _)].
  - rewrite Hout. split; [by intros Ht|].
    intros (n & s' & Hn & Hsteps).
    assert (drain_loop fuel c (State (self s) w) = Ret () s') as Hret
      by (apply drain_loop_Ret_iff; eauto).
    congruence.
  - rewrite Hret. split.
    + intros _. apply drain_loop_Ret_iff in Hret as (n & Hn & Hsteps). eauto.
    + intros _. apply resolve_terminates.
Qed.

End drain_facts.

(** On the chip of [stuck_state] the count stays at 2 and the flag stays
    clear: every turn of the loop leads to the next. *)
Lemma stuck_chip_spins (fuel : nat) (k : Keys) (tr : list io) :
  keypad k = Some {| address := TCA8418_ADDR |} →
  drain_loop fuel 2 (State k (World (Chip true 0 [press 13; press 17] 0 1) tr)) =
    OutOfFuel.
Proof.
  revert k tr. induction fuel as [|fuel IH]; intros k tr Hkp.
  - by apply drain_loop_no_fuel.
  - rewrite drain_loop_turn by done.
    erewrite turn_eq; [| exact Hkp | |].
    + apply IH. exact Hkp.
    + simpl. eapply read_key_event_no_event; [reflexivity | reflexivity |].
      left. reflexivity.
    + reflexivity.
Qed.

Section drain_claims.
Context {D : Type} `{Board D}.

(** C2, as the code has it: the loop reads the event count again after
    every [scan] and ends when a read gives 0.  With fuel for [fuel] turns,
    a poll of an object that has its keypad comes to an end exactly when at
    most [fuel] turns lead from the count first read to a count of 0; a turn
    in which [read_key_event] delivers nothing is a turn as any other, after
    which the count is read again, and no number of turns is a bound. *)
Theorem poll_ends_iff_count_reaches_zero (fuel : nat) (force_fn force_shift : bool)
    (s : state D) kp c w :
  keypad (self s) = Some kp →
  read_event_count kp (hw s) = Ret c w →
  terminates (get_pressed_keys fuel force_fn force_shift s) ↔
  ∃ n s', (n ≤ fuel)%nat ∧ nsteps turn n (c, State (self s) w) (0, s').
Proof. apply get_pressed_keys_terminates_iff. Qed.

End drain_claims.

Lemma poll_ends_iff_count_reaches_zero_witness :
  terminates (get_pressed_keys 3 false false glitch_state).
Proof.
  refine (proj2 (poll_ends_iff_count_reaches_zero 3 false false glitch_state
                   {| address := TCA8418_ADDR |} 2
                   (World (Chip true 1 [press 13; press 17] 1 1)
                          [I2cRead 0x34 REG_KEY_LCK_EC 2]) _ _) _);
    [reflexivity | reflexivity |].
  eexists 3%nat, _. split; [lia|].
  do 3 turn_step. apply nsteps_O.
Defined.

(** The poll of [glitch_state]: one turn without event, then the two
    events. *)
Example glitch_poll :
  returned (get_pressed_keys 3 false false glitch_state) = Some ["a"; "s"] ∧
  get_pressed_keys 2 false false glitch_state = OutOfFuel.
Proof. split; vm_compute; reflexivity. Qed.

(** C2 fails as stated: with two events buffered and the flag clear,
    [read_key_event] never delivers an event, the count stays at 2, and no
    amount of fuel lets the poll end. *)
Lemma poll_of_stuck_chip_never_ends :
  ¬ ∃ fuel, terminates (get_pressed_keys fuel false false stuck_state).
Proof.
  intros [fuel Ht]. apply Ht. unfold get_pressed_keys. unfold_monad.
  rewrite (drain_eq fuel stuck_state {| address := TCA8418_ADDR |} 2
             (World (Chip true 0 [press 13; press 17] 0 1)
                    [I2cRead 0x34 REG_KEY_LCK_EC 2])) by reflexivity.
  by rewrite stuck_chip_spins.
Qed.

(** ** The poll *)

Section poll_claims.
Context {D : Type} `{Board D}.

(** C4: a poll resolves every held code through the table of the layer
    chosen as the specification says: Fn when the Fn code (3) is held or
    [force_fn] is set, whatever holds of Shift; else Shift when the Shift
    code (7) is held or [force_shift] is set; else Plain. *)
Theorem poll_resolves_through_active_layer (fuel : nat) (force_fn force_shift : bool)
    (s s1 : state D) v d :
  drain fuel s = Ret () s1 →
  pin_value (G0 (self s1)) (board (hw s1)) = (v, d) →
  let held := _key_list_buffer (self s1) in
  let poll := result (get_pressed_keys fuel force_fn force_shift s) in
  poll = Some (resolved (LayerTable (active_layer held force_fn force_shift)) held v) ∧
  (KC_FN ∈ held ∨ force_fn = true →
     poll = Some (resolved KEYMAP_FN held v)) ∧
  (¬ (KC_FN ∈ held ∨ force_fn = true) → KC_SHIFT ∈ held ∨ force_shift = true →
     poll = Some (resolved KEYMAP_SHIFT held v)) ∧
  (¬ (KC_FN ∈ held ∨ force_fn = true) → ¬ (KC_SHIFT ∈ held ∨ force_shift = true) →
     poll = Some (resolved KEYMAP held v)).
Proof.
  intros Hdrain Hpin held poll.
  assert (poll = Some (resolved (LayerTable (active_layer held force_fn force_shift))
                         held v)) as Hpoll
    by (by apply (get_pressed_keys_result fuel force_fn force_shift s s1 v d)).
  split; [done|]. rewrite Hpoll. unfold active_layer. split_and!.
  - intros Hfn. by rewrite decide_True.
  - intros Hfn Hsh. by rewrite decide_False, decide_True.
  - intros Hfn Hsh. by rewrite !decide_False.
Qed.

(** C6: the list a poll returns is the symbol of G0 first, when its pin
    reads 0, and then one symbol for each held code, in the order of the
    buffer, each the entry of its code in the table of the active layer; the
    poll returns when every held code has an entry.  With G0 pushed and no
    key held that is ["G0"]; with nothing held and G0 not pushed it is the
    empty list. *)
Theorem poll_returns_symbols_in_buffer_order (fuel : nat) (force_fn force_shift : bool)
    (s s1 : state D) v d :
  drain fuel s = Ret () s1 →
  pin_value (G0 (self s1)) (board (hw s1)) = (v, d) →
  let held := _key_list_buffer (self s1) in
  let table := LayerTable (active_layer held force_fn force_shift) in
  let poll := returned (get_pressed_keys fuel force_fn force_shift s) in
  (∀ syms, poll = Some syms →
     ∃ rest, syms = (if decide (v = 0) then ["G0"] else []) ++ rest ∧
             Forall2 (λ code sym, table !! code = Some sym) held rest) ∧
  (Forall (λ code, is_Some (table !! code)) held → is_Some poll) ∧
  (held = [] → v = 0 → poll = Some ["G0"]) ∧
  (held = [] → v ≠ 0 → poll = Some []).
Proof.
  intros Hdrain Hpin held table poll. subst poll.
  rewrite (get_pressed_keys_eq fuel force_fn force_shift s s1 v d Hdrain Hpin).
  cbv zeta. fold held. fold table.
  destruct (first_unmapped table held) as [code|] eqn:Hf; simpl.
  - split_and!; try done.
    + intros Hall. apply first_unmapped_None in Hall. congruence.
    + intros Hheld. rewrite Hheld in Hf. discriminate.
    + intros Hheld. rewrite Hheld in Hf. discriminate.
  - split_and!.
    + intros syms [= <-]. eexists. split; [reflexivity|].
      by apply resolved_prefix_all.
    + by eexists.
    + intros -> ->. done.
    + intros -> Hv. unfold aux_symbols. by rewrite decide_False.
Qed.

(** C3, as the code has it: when every held code has an entry in the
    table of the active layer, the poll returns, with one symbol for each
    held code; when some held code has none, the lookup of the first such
    code raises [KeyError] out of the poll, nothing is returned, and
    [key_state] is left with the symbols found before that code. *)
Theorem poll_raises_KeyError_on_unmapped_code (fuel : nat) (force_fn force_shift : bool)
    (s s1 : state D) v d :
  drain fuel s = Ret () s1 →
  pin_value (G0 (self s1)) (board (hw s1)) = (v, d) →
  let held := _key_list_buffer (self s1) in
  let table := LayerTable (active_layer held force_fn force_shift) in
  let poll := get_pressed_keys fuel force_fn force_shift s in
  (Forall (λ code, is_Some (table !! code)) held →
     ∃ syms s', poll = Ret syms s' ∧
       length syms = (length (aux_symbols v) + length held)%nat) ∧
  (∀ code, first_unmapped table held = Some code →
     code ∈ held ∧ table !! code = None ∧
     ∃ s', poll = Raise (KeyError code) s' ∧
       key_state (self s') = aux_symbols v ++ resolved_prefix table held).
Proof.
  intros Hdrain Hpin held table poll. subst poll.
  rewrite (get_pressed_keys_eq fuel force_fn force_shift s s1 v d Hdrain Hpin).
  cbv zeta. fold held. fold table. split.
  - intros Hall. apply first_unmapped_None in Hall as Hf. rewrite Hf.
    eexists _, _. split; [reflexivity|].
    rewrite length_app. f_equal. symmetry.
    eapply Forall2_length. by apply resolved_prefix_all.
  - intros code Hf. rewrite Hf.
    destruct (first_unmapped_Some table held code Hf) as [Hin Hnone].
    split_and!; [done..|]. by eexists.
Qed.

(** C8: two polls with the same flags, each finding the FIFO empty and
    reading the same value from the pin of G0, the object untouched between
    them but for [key_state] (the list the first poll handed out), give the
    same result; and they do give one. *)
Theorem polls_without_events_agree (f1 f2 : nat) (force_fn force_shift : bool)
    (s s1 s2 : state D) kp w1 w2 v d1 d2 :
  keypad (self s) = Some kp →
  read_event_count kp (hw s) = Ret 0 w1 →
  pin_value (G0 (self s)) (board w1) = (v, d1) →
  final (get_pressed_keys f1 force_fn force_shift s) = Some s1 →
  with_key_state (self s2) [] = with_key_state (self s1) [] →
  read_event_count kp (hw s2) = Ret 0 w2 →
  pin_value (G0 (self s)) (board w2) = (v, d2) →
  result (get_pressed_keys f2 force_fn force_shift s2) =
    result (get_pressed_keys f1 force_fn force_shift s) ∧
  is_Some (result (get_pressed_keys f1 force_fn force_shift s)).
Proof.
  intros Hkp Hc1 Hp1 Hfinal Hsame Hc2 Hp2.
  assert (drain f1 s = Ret () (State (self s) w1)) as Hd1.
  { rewrite (drain_eq f1 s kp 0 w1 Hkp Hc1). apply drain_loop_zero. }
  pose proof (get_pressed_keys_eq f1 force_fn force_shift s _ v d1 Hd1 Hp1) as E1.
  cbv zeta in E1. simpl in E1.
  assert (with_key_state (self s1) [] = with_key_state (self s) []) as Hs1.
  { rewrite E1 in Hfinal.
    destruct (first_unmapped _ _); simpl in Hfinal; by injection Hfinal as <-. }
  rewrite Hs1 in Hsame.
  assert (_key_list_buffer (self s2) = _key_list_buffer (self s) ∧
          G0 (self s2) = G0 (self s) ∧ keypad (self s2) = keypad (self s))
    as (Hbuf & Hg & Hk).
  { unfold with_key_state in Hsame. by injection Hsame as -> -> ->. }
  assert (drain f2 s2 = Ret () (State (self s2) w2)) as Hd2.
  { rewrite (drain_eq f2 s2 kp 0 w2); [apply drain_loop_zero | congruence | done]. }
  assert (pin_value (G0 (self (State (self s2) w2)))
            (board (hw (State (self s2) w2))) = (v, d2)) as Hp2'
    by (simpl; by rewrite Hg).
  rewrite (get_pressed_keys_result f2 force_fn force_shift s2 _ v d2 Hd2 Hp2').
  rewrite (get_pressed_keys_result f1 force_fn force_shift s _ v d1 Hd1 Hp1).
  simpl. rewrite Hbuf. split; [done | by eexists].
Qed.

End poll_claims.

Lemma poll_resolves_through_active_layer_witness :
  result (get_pressed_keys 3 false false fn_shift_state) =
    Some (inr ["FN"; "SHIFT"; "F1"]).
Proof.
  refine (proj1 (proj2 (poll_resolves_through_active_layer 3 false false
                          fn_shift_state
                          (State (with_buffer fresh [3; 7; 5]) _) 1 idle _ _)) _).
  - vm_compute. reflexivity.
  - reflexivity.
  - left. vm_compute. apply list_elem_of_here.
Defined.

Lemma poll_returns_symbols_in_buffer_order_witness :
  returned (get_pressed_keys 0 false false g0_pushed_state) = Some ["G0"].
Proof.
  refine (proj1 (proj2 (proj2 (poll_returns_symbols_in_buffer_order 0 false false
                                 g0_pushed_state
                                 (State fresh (World (Chip true 0 [] 0 0) _))
                                 0 (Chip true 0 [] 0 0) _ _))) _ _).
  - vm_compute. reflexivity.
  - reflexivity.
  - reflexivity.
  - reflexivity.
Defined.

Lemma poll_raises_KeyError_on_unmapped_code_witness :
  9 ∈ [13; 9; 17] ∧ KEYMAP !! 9 = None ∧
  ∃ s', get_pressed_keys 3 false false unmapped_state = Raise (KeyError 9) s' ∧
        key_state (self s') = ["a"].
Proof.
  refine (proj2 (poll_raises_KeyError_on_unmapped_code 3 false false
                   unmapped_state
                   (State (with_buffer fresh [13; 9; 17]) _) 1 idle _ _) 9 _).
  - vm_compute. reflexivity.
  - reflexivity.
  - vm_compute. reflexivity.
Defined.

(** C3 fails as stated: with code 9 held between [a] and [s], the poll
    raises [KeyError] and reports no key. *)
Lemma poll_crashes_on_unmapped_code :
  raised (get_pressed_keys 3 false false unmapped_state) = Some (KeyError 9) ∧
  returned (get_pressed_keys 3 false false unmapped_state) = None.
Proof. split; vm_compute; reflexivity. Qed.

Lemma polls_without_events_agree_witness :
  result (get_pressed_keys 0 false false
            (next_poll (get_pressed_keys 0 false false holding_a_state) id)) =
    result (get_pressed_keys 0 false false holding_a_state) ∧
  is_Some (result (get_pressed_keys 0 false false holding_a_state)).
Proof.
  refine (polls_without_events_agree 0 0 false false holding_a_state
            (next_poll (get_pressed_keys 0 false false holding_a_state) id)
            (next_poll (get_pressed_keys 0 false false holding_a_state) id)
            {| address := TCA8418_ADDR |}
            (World idle [I2cRead 0x34 REG_KEY_LCK_EC 0])
            (World idle [I2cRead 0x34 REG_KEY_LCK_EC 0; PinValue 0 1;
                         I2cRead 0x34 REG_KEY_LCK_EC 0])
            1 idle idle _ _ _ _ _ _ _); vm_compute; reflexivity.
Defined.

(** The scenarios of the specification, on the simulated chip. *)
Example scenario_1 :
  let poll1 := get_pressed_keys 1 false false
                 (State fresh (World (key_events [press 13] idle) [])) in
  returned poll1 = Some ["a"] ∧
  returned (get_pressed_keys 1 false false
              (next_poll poll1 (key_events [release 13]))) = Some [].
Proof. split; vm_compute; reflexivity. Qed.

Example scenario_2 :
  returned (get_pressed_keys 2 false false
              (State fresh (World (key_events [press 7; press 6] idle) []))) =
    Some ["SHIFT"; "Q"].
Proof. vm_compute. reflexivity. Qed.

Example scenario_3 :
  returned (get_pressed_keys 2 false false
              (State fresh (World (key_events [press 3; press 5] idle) []))) =
    Some ["FN"; "F1"].
Proof. vm_compute. reflexivity. Qed.

(** ** Bring-up *)

Section bring_up.
Context {D : Type} `{Board D}.

Lemma init_device_returns (self : TCA8418) (w : world D) :
  ∃ w', init_device self w = Ret () w'.
Proof. unfold init_device, _write_register. unfold_monad. by eexists. Qed.

(** When the scan of the bus finds the address, the driver is set up and
    [Keys()] has its keypad. *)
Lemma Keys_init_present (w : world D) found d :
  i2c_scan (board w) = (found, d) →
  TCA8418_ADDR ∈ found →
  ∃ w', keys.__init__ w =
          Ret {| _key_list_buffer := []; G0 := 0;
                 keypad := Some {| address := TCA8418_ADDR |}; key_state := [] |} w'.
Proof.
  intros Hscan Hin.
  unfold keys.__init__, tca8418.__init__, scan_bus, init_device, _write_register.
  unfold_monad. rewrite Hscan. simpl.
  rewrite bool_decide_eq_false_2 by (intros Hn; by apply Hn).
  by eexists.
Qed.

(** An object without [keypad] cannot be polled. *)
Lemma poll_without_keypad (k : Keys) (w : world D) fuel force_fn force_shift :
  keypad k = None →
  get_pressed_keys fuel force_fn force_shift (State k w) =
    Raise (AttributeError "'Keys' object has no attribute 'keypad'") (State k w).
Proof.
  intros Hk. unfold get_pressed_keys, drain, self_keypad. unfold_monad.
  simpl. by rewrite Hk.
Qed.

(** C7, as the code has it: when the scan of the bus does not find the
    address of the chip, [TCA8418.__init__] raises [OSError] after that one
    scan, with no register written; [Keys.__init__] catches the error,
    prints it, and returns an object without [keypad]. *)
Theorem absent_chip_error_is_caught (w : world D) found d :
  i2c_scan (board w) = (found, d) →
  TCA8418_ADDR ∉ found →
  tca8418.__init__ TCA8418_ADDR w =
    Raise (OSError "TCA8418 not found at address 0x34")
          (World d (trace w ++ [I2cScan found])) ∧
  keys.__init__ w =
    Ret {| _key_list_buffer := []; G0 := 0; keypad := None; key_state := [] |}
        (World d (trace w ++
           [I2cScan found;
            Print "I2C communication error: TCA8418 not found at address 0x34"])).
Proof.
  intros Hscan Hnot.
  assert (tca8418.__init__ TCA8418_ADDR w =
            Raise (OSError "TCA8418 not found at address 0x34")
                  (World d (trace w ++ [I2cScan found]))) as Hdrv.
  { unfold tca8418.__init__, scan_bus. unfold_monad. rewrite Hscan. simpl.
    by rewrite bool_decide_eq_true_2. }
  assert (keys.__init__ w =
            Ret {| _key_list_buffer := []; G0 := 0; keypad := None; key_state := [] |}
                (World d (trace w ++
                   [I2cScan found;
                    Print "I2C communication error: TCA8418 not found at address 0x34"])))
    as Hkeys.
  { unfold keys.__init__. unfold_monad. rewrite Hdrv. unfold print. simpl.
    by rewrite <- app_assoc. }
  done.
Qed.

End bring_up.

Lemma absent_chip_error_is_caught_witness :
  keys.__init__ absent_world =
    Ret {| _key_list_buffer := []; G0 := 0; keypad := None; key_state := [] |}
        (World (Chip false 0 [] 0 1)
           [I2cScan [];
            Print "I2C communication error: TCA8418 not found at address 0x34"]).
Proof.
  refine (proj2 (absent_chip_error_is_caught absent_world []
                   (Chip false 0 [] 0 1) _ _)).
  - reflexivity.
  - apply not_elem_of_nil.
Defined.

(** C7 fails as stated: with the chip absent, [Keys()] raises nothing and
    returns an object. *)
Lemma absent_chip_does_not_abort_bring_up :
  raised (keys.__init__ absent_world) = None ∧
  is_Some (returned (keys.__init__ absent_world)).
Proof. split; [vm_compute; reflexivity | by eexists]. Qed.

(** A key that goes up and down again comes back last: the order of the
    symbols is the order in which the held codes entered the buffer. *)
Example reentry_order :
  returned (get_pressed_keys 4 false false
              (State fresh
                 (World (key_events [press 13; press 17; release 13; press 13] idle)
                        []))) =
    Some ["s"; "a"].
Proof. vm_compute. reflexivity. Qed.

(** * Further properties of the driver *)

Section driver_extras.
Context {D : Type} `{Board D}.

Lemma init_device_eq (self : TCA8418) (w : world D) :
  init_device self w =
    Ret () (World (foldl (λ d '(reg, val), i2c_writeto_mem (address self) reg val d)
                         (board w) init_writes)
                  (trace w ++ ((λ '(reg, val), I2cWrite (address self) reg val)
                                 <$> init_writes))).
Proof.
  unfold init_device, _write_register. unfold_monad. simpl.
  by rewrite <- !app_assoc.
Qed.

(** What the constructor of the driver does, found or not. *)
Lemma driver_init_eq (a : Z) (w : world D) :
  let found := (i2c_scan (board w)).1 in
  let d := (i2c_scan (board w)).2 in
  tca8418.__init__ a w =
    if decide (a ∈ found)
    then Ret {| address := a |}
             (World (foldl (λ d '(reg, val), i2c_writeto_mem a reg val d) d init_writes)
                    (trace w ++ I2cScan found ::
                       ((λ '(reg, val), I2cWrite a reg val) <$> init_writes)))
    else Raise (OSError ("TCA8418 not found at address " +:+ HexString.of_Z a))
               (World d (trace w ++ [I2cScan found])).
Proof.
  unfold tca8418.__init__, scan_bus. unfold_monad.
  destruct (i2c_scan (board w)) as [found d]. cbn [fst snd].
  case_decide as Hin.
  - rewrite bool_decide_eq_false_2 by (intros Hn; by apply Hn).
    rewrite init_device_eq. cbn [board trace address].
    by rewrite <- app_assoc.
  - by rewrite bool_decide_eq_true_2.
Qed.

(** X1: [TCA8418(i2c, address)] scans the bus once.  If the address is
    among those found, it writes the six configuration registers, in the
    order of [init_device] and starting with the clear of the interrupt
    status, and returns the driver; if not, it raises [OSError] naming the
    address in hexadecimal, and has written no register. *)
Theorem driver_init_outcome (a : Z) (w : world D) :
  let found := (i2c_scan (board w)).1 in
  let d := (i2c_scan (board w)).2 in
  tca8418.__init__ a w =
    if decide (a ∈ found)
    then Ret {| address := a |}
             (World (foldl (λ d '(reg, val), i2c_writeto_mem a reg val d) d init_writes)
                    (trace w ++ I2cScan found ::
                       ((λ '(reg, val), I2cWrite a reg val) <$> init_writes)))
    else Raise (OSError ("TCA8418 not found at address " +:+ HexString.of_Z a))
               (World d (trace w ++ [I2cScan found])).
Proof. apply driver_init_eq. Qed.

(** What [Keys()] does, chip found or not. *)
Lemma Keys_init_eq (w : world D) :
  let found := (i2c_scan (board w)).1 in
  let d := (i2c_scan (board w)).2 in
  keys.__init__ w =
    if decide (TCA8418_ADDR ∈ found)
    then Ret {| _key_list_buffer := []; G0 := 0;
                keypad := Some {| address := TCA8418_ADDR |}; key_state := [] |}
             (World (foldl (λ d '(reg, val), i2c_writeto_mem TCA8418_ADDR reg val d)
                           d init_writes)
                    (trace w ++ I2cScan found ::
                       ((λ '(reg, val), I2cWrite TCA8418_ADDR reg val) <$> init_writes)))
    else Ret {| _key_list_buffer := []; G0 := 0; keypad := None; key_state := [] |}
             (World d (trace w ++
                [I2cScan found;
                 Print "I2C communication error: TCA8418 not found at address 0x34"])).
Proof.
  intros found d. unfold keys.__init__. unfold_monad.
  pose proof (driver_init_eq TCA8418_ADDR w) as Hdrv. cbv zeta in Hdrv.
  fold found in Hdrv. fold d in Hdrv. rewrite Hdrv.
  case_decide; [done|]. unfold print. cbn [board trace].
  by rewrite <- app_assoc.
Qed.


(** X3: [read_event_count] returns the low four bits of the event-count
    register, a number from 0 to 15, and its one bus transaction is the read
    of that register. *)
Theorem read_event_count_low_nibble (self : TCA8418) (w : world D) :
  let r := (i2c_readfrom_mem (address self) REG_KEY_LCK_EC (board w)).1 in
  let d := (i2c_readfrom_mem (address self) REG_KEY_LCK_EC (board w)).2 in
  read_event_count self w =
    Ret (r `mod` 16)
        (World d (trace w ++ [I2cRead (address self) REG_KEY_LCK_EC r])) ∧
  0 ≤ r `mod` 16 < 16.
Proof.
  intros r d. split; [|apply Z.mod_pos_bound; lia].
  unfold read_event_count, _read_register. unfold_monad.
  subst r d. destruct (i2c_readfrom_mem _ _ _) as [r d]. cbn [fst snd].
  f_equal. apply (Z.land_ones r 4). lia.
Qed.

(** X4: whatever the board answers, [read_key_event] returns, with a code
    from 0 to 127, and it only adds to the trace. *)
Theorem read_key_event_code_range (self : TCA8418) (w : world D) :
  ∃ code pressed w',
    read_key_event self w = Ret (code, pressed) w' ∧
    0 ≤ code < 128 ∧
    trace w `prefix_of` trace w'.
Proof.
  destruct (i2c_readfrom_mem (address self) REG_INT_STAT (board w))
    as [interrupt d1] eqn:E1.
  destruct (i2c_readfrom_mem (address self) REG_KEY_LCK_EC d1) as [r d2] eqn:E2.
  destruct (i2c_readfrom_mem (address self) REG_KEY_STAT d2) as [k d3] eqn:E3.
  destruct (Z.testbit interrupt 0) eqn:Hb;
    [destruct (decide (Z.land r 0x0F = 0)) as [Hz|Hz]|].
  - rewrite (read_key_event_no_event self w _ _ _ _ E1 E2 (or_intror Hz)), Hb.
    eexists _, _, _. split_and!; [done | lia.. | by eexists].
  - rewrite (read_key_event_event self w _ _ _ _ _ _ E1 E2 E3 Hb Hz).
    eexists _, _, _. split_and!; [done | apply Z.mod_pos_bound; lia.. | by eexists].
  - rewrite (read_key_event_no_event self w _ _ _ _ E1 E2 (or_introl Hb)), Hb.
    eexists _, _, _. split_and!; [done | lia.. | by eexists].
Qed.

(** X5: when the flag bit is clear, or the count is zero, [read_key_event]
    does not read the key-status register, so that no event is popped, and
    writes no register: it reads the interrupt status and, if the flag is
    set, the event count. *)
Theorem read_key_event_does_not_pop (self : TCA8418) (w : world D) interrupt d1 r d2 :
  i2c_readfrom_mem (address self) REG_INT_STAT (board w) = (interrupt, d1) →
  i2c_readfrom_mem (address self) REG_KEY_LCK_EC d1 = (r, d2) →
  Z.testbit interrupt 0 = false ∨ Z.land r 0x0F = 0 →
  read_key_event self w =
    Ret (0, false)
        (if Z.testbit interrupt 0
         then World d2 (trace w ++ [I2cRead (address self) REG_INT_STAT interrupt;
                                    I2cRead (address self) REG_KEY_LCK_EC r])
         else World d1 (trace w ++ [I2cRead (address self) REG_INT_STAT interrupt])).
Proof. apply read_key_event_no_event. Qed.

End driver_extras.

Lemma read_key_event_does_not_pop_witness :
  read_key_event {| address := TCA8418_ADDR |} (hw stuck_state) =
    Ret (0, false)
        (World (Chip true 0 [press 13; press 17] 0 1) [I2cRead 0x34 REG_INT_STAT 0]).
Proof.
  refine (read_key_event_does_not_pop {| address := TCA8418_ADDR |} (hw stuck_state)
            0 (board (hw stuck_state)) 2 (board (hw stuck_state)) _ _ _);
    [reflexivity | reflexivity | left; reflexivity].
Defined.

(** * Further properties of the held-key buffer *)


Lemma list_remove_app_absent (x : Z) (l : list Z) :
  x ∉ l → list_remove x (l ++ [x]) = Some l.
Proof.
  induction l as [|y l IH]; simpl; intros Hn.
  - by rewrite bool_decide_eq_true_2.
  - apply not_elem_of_cons in Hn as [Hxy Hl].
    rewrite bool_decide_eq_false_2 by done. by rewrite IH.
Qed.

Section buffer_extras.
Context {D : Type} `{Board D}.

Lemma scan_run_fold (s : state D) evs s' :
  scan_run s evs s' →
  _key_list_buffer (self s') =
    foldl (λ buf ev, buffer_after ev buf) (_key_list_buffer (self s)) evs.
Proof.
  induction 1 as [s | s kp ev w buf s1 evs s2 Hkp Hev Hscan Hrun IH
                 | s s1 evs s2 Hbuf Hrun IH].
  - done.
  - rewrite (scan_eq s kp ev w Hkp Hev) in Hscan.
    injection Hscan as _ <-. by rewrite IH.
  - by rewrite IH, Hbuf.
Qed.


(** X7: a press and then the release of a code that is not held leaves
    the buffer as it was; of a code that is held, the press changes nothing
    and the release takes the code out of the buffer. *)
Theorem press_then_release (s s' : state D) (code : Z) :
  scan_run s [(code, true); (code, false)] s' →
  let old := _key_list_buffer (self s) in
  let new := _key_list_buffer (self s') in
  (code ∉ old → new = old) ∧
  (code ∈ old → list_remove code old = Some new).
Proof.
  intros Hrun old new. subst new. rewrite (scan_run_fold _ _ _ Hrun). fold old.
  cbn [foldl]. rewrite buffer_after_press. split; intros Hin.
  - rewrite decide_False by done. simpl.
    by rewrite list_remove_app_absent.
  - rewrite decide_True by done. simpl.
    destruct (list_remove code old) as [r|] eqn:E; [done|].
    apply list_remove_None in E. done.
Qed.

End buffer_extras.


Lemma press_then_release_witness :
  ∃ s' : state chip,
    scan_run (State fresh (World (key_events [press 13; release 13] idle) []))
             [(13, true); (13, false)] s' ∧
    _key_list_buffer (self s') = [].
Proof.
  eassert (scan_run (State fresh (World (key_events [press 13; release 13] idle) []))
                    [(13, true); (13, false)] _) as Hrun
    by (do 2 scan_run_step; apply scan_run_done).
  eexists. split; [exact Hrun|].
  apply (proj1 (press_then_release _ _ 13 Hrun)). apply not_elem_of_nil.
Defined.

(** * Further properties of the poll *)

Lemma layer_unmapped_iff (layer : ModifierLayer) (code : Z) :
  LayerTable layer !! code = None ↔ KEYMAP !! code = None.
Proof.
  destruct tables_have_the_same_codes as [Hshift Hfn].
  rewrite <- !not_elem_of_dom. destruct layer; simpl; by rewrite ?Hshift, ?Hfn.
Qed.

Lemma first_unmapped_layer (layer : ModifierLayer) (held : list Z) :
  first_unmapped (LayerTable layer) held = first_unmapped KEYMAP held.
Proof.
  unfold first_unmapped. induction held as [|c held IH]; simpl; [done|].
  by rewrite IH, (bool_decide_ext _ _ (layer_unmapped_iff layer c)).
Qed.

(** The modifier keys have their own name as symbol in every layer. *)
Lemma modifier_symbols_in_every_layer :
  map_Forall (λ code sym, sym ∈ MOD_KEYS →
                KEYMAP_SHIFT !! code = Some sym ∧ KEYMAP_FN !! code = Some sym)
             KEYMAP.
Proof. compute_done. Qed.

Section poll_extras.
Context {D : Type} `{Board D}.

Lemma drain_without_keypad (fuel : nat) (s : state D) :
  keypad (self s) = None →
  drain fuel s =
    Raise (AttributeError "'Keys' object has no attribute 'keypad'") s.
Proof.
  intros Hk. unfold drain, self_keypad. unfold_monad. by rewrite Hk.
Qed.

Lemma scan_without_keypad (s : state D) :
  keypad (self s) = None →
  scan s = Raise (AttributeError "'Keys' object has no attribute 'keypad'") s.
Proof.
  intros Hk. unfold scan, self_keypad. unfold_monad. by rewrite Hk.
Qed.

Lemma turn_inv (s : state D) c s' :
  (scan ;; kp ← self_keypad; machine (read_event_count kp)) s = Ret c s' →
  ∃ kp ev w w',
    keypad (self s) = Some kp ∧
    read_key_event kp (hw s) = Ret ev w ∧
    read_event_count kp w = Ret c w' ∧
    s' = State (with_buffer (self s) (buffer_after ev (_key_list_buffer (self s)))) w'.
Proof.
  intros Hturn. destruct (keypad (self s)) as [kp|] eqn:Hkp.
  - destruct (read_key_event_returns kp (hw s)) as (ev & w & Hev).
    destruct (read_event_count_returns kp w) as (c1 & w' & Hc).
    rewrite (turn_eq s kp ev w c1 w' Hkp Hev Hc) in Hturn.
    injection Hturn as <- <-. by exists kp, ev, w, w'.
  - exfalso. revert Hturn. unfold_monad. by rewrite (scan_without_keypad s Hkp).
Qed.

(** The turns of the drain loop are a run of [scan], one event a turn,
    and leave the other attributes of the object alone. *)
Lemma nsteps_turn_scan_run (n : nat) (x y : Z * state D) :
  nsteps turn n x y →
  ∃ evs, length evs = n ∧ scan_run x.2 evs y.2 ∧
         with_buffer (self y.2) [] = with_buffer (self x.2) [].
Proof.
  induction 1 as [x|n [c s] [c1 s1] z [Hc Hturn] Hsteps IH].
  - exists []. split_and!; [done | constructor | done].
  - destruct IH as (evs & Hlen & Hrun & Hsame). cbn [fst snd] in *.
    destruct (turn_inv s c1 s1 Hturn) as (kp & ev & w & w' & Hkp & Hev & _ & ->).
    exists (ev :: evs). split_and!.
    + simpl. by rewrite Hlen.
    + eapply scan_run_scan; [exact Hkp | exact Hev | by apply (scan_eq s kp) |].
      eapply scan_run_other; [|exact Hrun]. done.
    + by rewrite Hsame.
Qed.

Lemma drain_cases (fuel : nat) (s : state D) :
  (keypad (self s) = None ∧
   drain fuel s = Raise (AttributeError "'Keys' object has no attribute 'keypad'") s) ∨
  drain fuel s = OutOfFuel ∨
  ∃ s1 evs, drain fuel s = Ret () s1 ∧ (length evs ≤ fuel)%nat ∧
            scan_run s evs s1 ∧
            with_buffer (self s1) [] = with_buffer (self s) [].
Proof.
  destruct (keypad (self s)) as [kp|] eqn:Hkp.
  - right. destruct (read_event_count_returns kp (hw s)) as (c & w & Hc).
    rewrite (drain_eq fuel s kp c w Hkp Hc).
    destruct (drain_loop_outcome fuel c (State (self s) w) kp Hkp)
      as [Hout|(s1 & Hret & _)]; [by left|right].
    pose proof Hret as Hret'.
    apply drain_loop_Ret_iff in Hret' as (n & Hn & Hsteps).
    apply nsteps_turn_scan_run in Hsteps as (evs & Hlen & Hrun & Hsame).
    cbn [fst snd] in *. exists s1, evs. split_and!; [done | lia | | done].
    eapply scan_run_other; [|exact Hrun]. done.
  - left. split; [done | by apply drain_without_keypad].
Qed.

(** The three ways of a poll: no keypad; a loop that does not end within
    the fuel; or a run of [scan] and then the resolution of the buffer. *)
Lemma get_pressed_keys_cases (fuel : nat) (force_fn force_shift : bool) (s : state D) :
  (keypad (self s) = None ∧
   get_pressed_keys fuel force_fn force_shift s =
     Raise (AttributeError "'Keys' object has no attribute 'keypad'") s) ∨
  get_pressed_keys fuel force_fn force_shift s = OutOfFuel ∨
  ∃ s1 evs v d,
    (length evs ≤ fuel)%nat ∧ scan_run s evs s1 ∧
    with_buffer (self s1) [] = with_buffer (self s) [] ∧
    get_pressed_keys fuel force_fn force_shift s =
      let held := _key_list_buffer (self s1) in
      let table := LayerTable (active_layer held force_fn force_shift) in
      let syms := aux_symbols v ++ resolved_prefix table held in
      let s' := State (with_key_state (self s1) syms)
                      (World d (trace (hw s1) ++ [PinValue (G0 (self s1)) v])) in
      match first_unmapped KEYMAP held with
      | None => Ret syms s'
      | Some code => Raise (KeyError code) s'
      end.
Proof.
  destruct (drain_cases fuel s) as [[Hk Hd]|[Hd|(s1 & evs & Hd & Hlen & Hrun & Hsame)]].
  - left. split; [done|]. unfold get_pressed_keys. unfold_monad. by rewrite Hd.
  - right; left. unfold get_pressed_keys. unfold_monad. by rewrite Hd.
  - right; right.
    destruct (pin_value (G0 (self s1)) (board (hw s1))) as [v d] eqn:Hpin.
    exists s1, evs, v, d. split_and!; [done..|].
    rewrite (get_pressed_keys_eq fuel force_fn force_shift s s1 v d Hd Hpin).
    cbv zeta. by rewrite first_unmapped_layer.
Qed.

(** X8: a poll keeps the held-key buffer free of duplicates, whether it
    returns or raises. *)
Theorem poll_keeps_buffer_duplicate_free (fuel : nat) (force_fn force_shift : bool)
    (s s' : state D) :
  NoDup (_key_list_buffer (self s)) →
  final (get_pressed_keys fuel force_fn force_shift s) = Some s' →
  NoDup (_key_list_buffer (self s')).
Proof.
  intros Hnd Hfinal.
  destruct (get_pressed_keys_cases fuel force_fn force_shift s)
    as [[_ E]|[E|(s1 & evs & v & d & _ & Hrun & _ & E)]];
    rewrite E in Hfinal; cbv zeta in Hfinal.
  - by injection Hfinal as <-.
  - done.
  - destruct (scan_run_held s evs s1 Hrun Hnd) as [Hnd1 _].
    destruct (first_unmapped _ _); by injection Hfinal as <-.
Qed.

(** X9: a poll that returns has put the list it returns in [key_state],
    as its docstring says, and has left [G0] and [keypad] as they were. *)
Theorem poll_populates_key_state (fuel : nat) (force_fn force_shift : bool)
    (s s' : state D) (syms : list string) :
  get_pressed_keys fuel force_fn force_shift s = Ret syms s' →
  key_state (self s') = syms ∧
  G0 (self s') = G0 (self s) ∧
  keypad (self s') = keypad (self s).
Proof.
  intros Hret.
  destruct (get_pressed_keys_cases fuel force_fn force_shift s)
    as [[_ E]|[E|(s1 & evs & v & d & _ & _ & Hsame & E)]];
    rewrite E in Hret; cbv zeta in Hret; [done..|].
  unfold with_buffer in Hsame. injection Hsame as Hg Hk _.
  destruct (first_unmapped _ _); [done|].
  injection Hret as <- <-. by rewrite <- Hg, <- Hk.
Qed.


(** X11: a poll that reads a count of zero does not call [scan]: it
    leaves the buffer as it is, and all it does on the hardware is that one
    read of the event count and the read of the pin of G0. *)
Theorem poll_with_empty_fifo (fuel : nat) (force_fn force_shift : bool)
    (s : state D) kp r d v d' :
  keypad (self s) = Some kp →
  i2c_readfrom_mem (address kp) REG_KEY_LCK_EC (board (hw s)) = (r, d) →
  Z.land r 0x0F = 0 →
  pin_value (G0 (self s)) d = (v, d') →
  ∃ s', final (get_pressed_keys fuel force_fn force_shift s) = Some s' ∧
        _key_list_buffer (self s') = _key_list_buffer (self s) ∧
        hw s' = World d' (trace (hw s) ++
                            [I2cRead (address kp) REG_KEY_LCK_EC r;
                             PinValue (G0 (self s)) v]).
Proof.
  intros Hkp Hr Hz Hpin.
  assert (read_event_count kp (hw s) =
            Ret 0 (World d (trace (hw s) ++ [I2cRead (address kp) REG_KEY_LCK_EC r])))
    as Hc.
  { unfold read_event_count. unfold_monad.
    rewrite (read_register_eq kp _ _ r d Hr).
    change (Z.land r 15) with (Z.land r 0x0F). by rewrite Hz. }
  assert (drain fuel s = Ret () (State (self s) (World d (trace (hw s) ++
            [I2cRead (address kp) REG_KEY_LCK_EC r])))) as Hd.
  { rewrite (drain_eq fuel s kp 0 _ Hkp Hc). apply drain_loop_zero. }
  rewrite (get_pressed_keys_eq fuel force_fn force_shift s _ v d' Hd Hpin).
  cbv zeta. cbn [self hw board trace].
  destruct (first_unmapped _ _); eexists; (split; [reflexivity|]);
    cbn [self hw with_key_state _key_list_buffer]; by rewrite <- app_assoc.
Qed.

(** X12: whether a poll ends, returns or raises, and what it raises, does
    not depend on the force flags: the three tables have entries for the
    same codes. *)
Theorem poll_failure_independent_of_flags (fuel : nat)
    (force_fn force_shift force_fn' force_shift' : bool) (s : state D) :
  let poll := get_pressed_keys fuel force_fn force_shift s in
  let poll' := get_pressed_keys fuel force_fn' force_shift' s in
  raised poll = raised poll' ∧
  (is_Some (returned poll) ↔ is_Some (returned poll')) ∧
  (terminates poll ↔ terminates poll').
Proof.
  intros poll poll'. subst poll poll'. unfold terminates.
  destruct (drain_cases fuel s) as [[Hk Hd]|[Hd|(s1 & evs & Hd & _)]].
  - unfold get_pressed_keys. unfold_monad. rewrite Hd. done.
  - unfold get_pressed_keys. unfold_monad. rewrite Hd. done.
  - destruct (pin_value (G0 (self s1)) (board (hw s1))) as [v d] eqn:Hpin.
    rewrite (get_pressed_keys_eq fuel force_fn force_shift s s1 v d Hd Hpin).
    rewrite (get_pressed_keys_eq fuel force_fn' force_shift' s s1 v d Hd Hpin).
    cbv zeta. rewrite !first_unmapped_layer.
    destruct (first_unmapped _ _); simpl; split_and!; try done;
      split; intros ?; by eexists.
Qed.

(** X13: a held modifier key is reported under its own name whatever the
    layer: if a poll returns and a held code has a symbol of [MOD_KEYS] in
    [KEYMAP], then that symbol is in the list returned. *)
Theorem poll_reports_held_modifiers (fuel : nat) (force_fn force_shift : bool)
    (s s' : state D) (syms : list string) (code : Z) (sym : string) :
  get_pressed_keys fuel force_fn force_shift s = Ret syms s' →
  code ∈ _key_list_buffer (self s') →
  KEYMAP !! code = Some sym →
  sym ∈ MOD_KEYS →
  sym ∈ syms.
Proof.
  intros Hret Hin Hsym Hmod.
  destruct (get_pressed_keys_cases fuel force_fn force_shift s)
    as [[_ E]|[E|(s1 & evs & v & d & _ & _ & _ & E)]];
    rewrite E in Hret; cbv zeta in Hret; [done..|].
  destruct (first_unmapped KEYMAP _) eqn:Hf; [done|].
  injection Hret as <- <-. cbn [self with_key_state _key_list_buffer] in Hin.
  rewrite <- (first_unmapped_layer
                (active_layer (_key_list_buffer (self s1)) force_fn force_shift)) in Hf.
  apply resolved_prefix_all in Hf.
  apply list_elem_of_lookup in Hin as [i Hi].
  destruct (Forall2_lookup_l _ _ _ _ _ Hf Hi) as (sym' & Hi' & Hlook).
  apply elem_of_app. right. apply list_elem_of_lookup. exists i.
  rewrite Hi'. f_equal.
  destruct (modifier_symbols_in_every_layer code sym Hsym Hmod) as [Hs Hfn].
  destruct (active_layer _ _ _); simpl in Hlook; congruence.
Qed.

(** X14: after a bring-up that did not find the chip, the object cannot
    be used: [scan] and every poll raise [AttributeError], and touch
    neither the object nor the hardware. *)
Theorem poll_after_failed_bring_up (w : world D) (k : Keys) (w0 w' : world D)
    (fuel : nat) (force_fn force_shift : bool) :
  TCA8418_ADDR ∉ (i2c_scan (board w)).1 →
  keys.__init__ w = Ret k w0 →
  get_pressed_keys fuel force_fn force_shift (State k w') =
    Raise (AttributeError "'Keys' object has no attribute 'keypad'") (State k w') ∧
  scan (State k w') =
    Raise (AttributeError "'Keys' object has no attribute 'keypad'") (State k w').
Proof.
  intros Hnot Hinit.
  pose proof (Keys_init_eq w) as E. cbv zeta in E.
  rewrite decide_False in E by done. rewrite E in Hinit.
  injection Hinit as <- _.
  split; [by apply poll_without_keypad | by apply scan_without_keypad].
Qed.

End poll_extras.

Lemma poll_keeps_buffer_duplicate_free_witness :
  NoDup (_key_list_buffer
           (self (next_poll (get_pressed_keys 3 false false three_events_state) id))).
Proof.
  refine (poll_keeps_buffer_duplicate_free 3 false false three_events_state
            (next_poll (get_pressed_keys 3 false false three_events_state) id) _ _).
  - apply NoDup_nil_2.
  - vm_compute. reflexivity.
Defined.

Lemma poll_populates_key_state_witness :
  let s' := next_poll (get_pressed_keys 3 false false fn_shift_state) id in
  key_state (self s') = ["FN"; "SHIFT"; "F1"] ∧
  G0 (self s') = G0 (self fn_shift_state) ∧
  keypad (self s') = keypad (self fn_shift_state).
Proof.
  refine (poll_populates_key_state 3 false false fn_shift_state
            (next_poll (get_pressed_keys 3 false false fn_shift_state) id)
            ["FN"; "SHIFT"; "F1"] _).
  vm_compute. reflexivity.
Defined.


Lemma poll_with_empty_fifo_witness :
  ∃ s', final (get_pressed_keys 0 false false holding_a_state) = Some s' ∧
        _key_list_buffer (self s') = [13] ∧
        hw s' = World idle [I2cRead 0x34 REG_KEY_LCK_EC 0; PinValue 0 1].
Proof.
  refine (poll_with_empty_fifo 0 false false holding_a_state
            {| address := TCA8418_ADDR |} 0 idle 1 idle _ _ _ _); reflexivity.
Defined.

Lemma poll_reports_held_modifiers_witness :
  "SHIFT" ∈ ["FN"; "SHIFT"; "F1"].
Proof.
  refine (poll_reports_held_modifiers 3 false false fn_shift_state
            (next_poll (get_pressed_keys 3 false false fn_shift_state) id)
            ["FN"; "SHIFT"; "F1"] 7 "SHIFT" _ _ _ _).
  - vm_compute. reflexivity.
  - vm_compute. apply list_elem_of_further, list_elem_of_here.
  - vm_compute. reflexivity.
  - apply list_elem_of_further, list_elem_of_further, list_elem_of_further,
      list_elem_of_here.
Defined.

Lemma poll_after_failed_bring_up_witness :
  get_pressed_keys 5 false false
    (State {| _key_list_buffer := []; G0 := 0; keypad := None; key_state := [] |}
           absent_world) =
    Raise (AttributeError "'Keys' object has no attribute 'keypad'")
          (State {| _key_list_buffer := []; G0 := 0; keypad := None; key_state := [] |}
                 absent_world) ∧
  scan (State {| _key_list_buffer := []; G0 := 0; keypad := None; key_state := [] |}
              absent_world) =
    Raise (AttributeError "'Keys' object has no attribute 'keypad'")
          (State {| _key_list_buffer := []; G0 := 0; keypad := None; key_state := [] |}
                 absent_world).
Proof.
  refine (poll_after_failed_bring_up absent_world _
            (World (Chip false 0 [] 0 1)
               [I2cScan [];
                Print "I2C communication error: TCA8418 not found at address 0x34"])
            absent_world 5 false false _ _).
  - apply not_elem_of_nil.
  - vm_compute. reflexivity.
Defined.

(** * The directional keys *)

Lemma ext_dir_dict_values_unmapped :
  map_Forall (λ _ dir, ext_dir_dict !! dir = None) ext_dir_dict.
Proof. compute_done. Qed.

Lemma ext_dir_unmapped (key : string) : ext_dir_dict !! ext_dir key = None.
Proof.
  unfold ext_dir. destruct (ext_dir_dict !! key) as [dir|] eqn:E; simpl; [|done].
  by apply (ext_dir_dict_values_unmapped key dir).
Qed.

Lemma ext_dir_idemp (key : string) : ext_dir (ext_dir key) = ext_dir key.
Proof. unfold ext_dir at 1. by rewrite ext_dir_unmapped. Qed.

(** The loop, from any index and for any number of turns: the items
    before [idx] and after the turns are untouched. *)
Lemma ext_dir_loop_eq (todo idx : nat) (keylist : list string) :
  ext_dir_loop todo idx keylist =
    take idx keylist ++ (ext_dir <$> take todo (drop idx keylist)) ++
    drop (idx + todo) keylist.
Proof.
  revert idx keylist. induction todo as [|todo IH]; intros idx keylist.
  - simpl. rewrite Nat.add_0_r. by rewrite take_drop.
  - simpl. destruct (keylist !! idx) as [key|] eqn:Hkey.
    + assert ((match ext_dir_dict !! key with
               | Some dir => <[idx:=dir]> keylist
               | None => keylist
               end) = <[idx:=ext_dir key]> keylist) as ->.
      { unfold ext_dir. destruct (ext_dir_dict !! key); simpl; [done|].
        by rewrite list_insert_id. }
      rewrite IH.
      assert (idx < length keylist)%nat as Hlt by (by eapply lookup_lt_Some).
      rewrite (take_S_r _ idx (ext_dir key))
        by (by rewrite list_lookup_insert_eq).
      rewrite take_insert_ge by lia.
      rewrite !drop_insert_lt by lia.
      rewrite (drop_S keylist key idx Hkey). simpl.
      rewrite <- app_assoc. simpl. do 3 f_equal. by rewrite Nat.add_succ_r.
    + apply lookup_ge_None in Hkey.
      rewrite take_ge, !drop_ge by lia. simpl. by rewrite app_nil_r.
Qed.

Lemma ext_dir_keys_fmap (keylist : list string) :
  ext_dir_keys keylist = ext_dir <$> keylist.
Proof.
  unfold ext_dir_keys. rewrite ext_dir_loop_eq. simpl.
  rewrite drop_0, firstn_all, drop_all. by rewrite app_nil_r.
Qed.

(** X15: [ext_dir_keys], which writes the list in place while it goes
    through it, gives the list of the same length in which each of [;], [,],
    [.], [/] and the backquote is replaced by its entry of [ext_dir_dict],
    and every other symbol is where and what it was. *)
Theorem ext_dir_keys_replaces_in_place (keylist : list string) :
  length (ext_dir_keys keylist) = length keylist ∧
  ∀ (i : nat) (key : string),
    keylist !! i = Some key →
    ext_dir_keys keylist !! i =
      Some (match ext_dir_dict !! key with
            | Some dir => dir
            | None => key
            end).
Proof.
  rewrite ext_dir_keys_fmap. split; [by rewrite length_fmap|].
  intros i key Hi. rewrite list_lookup_fmap, Hi. simpl.
  unfold ext_dir. by destruct (ext_dir_dict !! key).
Qed.

(** X16: [ext_dir_keys] leaves none of the symbols it replaces, and a
    second pass changes nothing. *)
Theorem ext_dir_keys_idempotent (keylist : list string) :
  Forall (λ sym, ext_dir_dict !! sym = None) (ext_dir_keys keylist) ∧
  ext_dir_keys (ext_dir_keys keylist) = ext_dir_keys keylist.
Proof.
  rewrite !ext_dir_keys_fmap. split.
  - apply Forall_fmap, Forall_forall. intros key _. apply ext_dir_unmapped.
  - rewrite <- list_fmap_compose. apply list_fmap_ext.
    intros _ key _. simpl. apply ext_dir_idemp.
Qed.

Lemma ext_dir_agrees_with_fn_table :
  map_Forall (λ code sym, is_Some (ext_dir_dict !! sym) →
                KEYMAP_FN !! code = Some (ext_dir sym)) KEYMAP.
Proof. compute_done. Qed.

(** X17: the symbols that [ext_dir_keys] replaces are those of the Plain
    layer for which the Fn layer has a direction or ESC: for every code
    whose symbol in [KEYMAP] is replaced, the replacement is the symbol of
    that code in [KEYMAP_FN]. *)
Theorem ext_dir_keys_gives_fn_symbols (code : Z) (sym : string) :
  KEYMAP !! code = Some sym →
  is_Some (ext_dir_dict !! sym) →
  ext_dir_keys [sym] = [ext_dir sym] ∧
  KEYMAP_FN !! code = Some (ext_dir sym).
Proof.
  intros Hsym Hdir. split; [by rewrite ext_dir_keys_fmap|].
  by apply (ext_dir_agrees_with_fn_table code sym).
Qed.

Lemma ext_dir_keys_gives_fn_symbols_witness :
  ext_dir_keys [";"] = ["UP"] ∧ KEYMAP_FN !! 57 = Some "UP".
Proof.
  refine (ext_dir_keys_gives_fn_symbols 57 ";" _ _).
  - vm_compute. reflexivity.
  - exists "UP". vm_compute. reflexivity.
Defined.

(** [ext_dir_keys] on a list of held keys. *)
Example ext_dir_keys_example :
  ext_dir_keys ["G0"; "a"; ";"; "/"; "UP"; "`"] = ["G0"; "a"; "UP"; "RIGHT"; "UP"; "ESC"].
Proof. vm_compute. reflexivity. Qed.
